(** * vision_agent.lmm: a shallow embedding of [vision_agent/lmm/lmm.py]

    The module is glue around two remote model services.  Everything it
    does that is observable from outside (opening an image file, logging,
    posting to the hosted endpoint, calling the chat-completion API,
    constructing and calling a vision tool) is recorded in a trace of
    events; the answers of the outside world come from a record of
    oracles.  Python exceptions are an explicit error result. *)

From Stdlib Require Import ZArith Ascii List PrimFloat.
From Stdlib Require String.
From stdpp Require Import base option list strings gmap fin_maps.

Local Set Warnings "-register-all,-inexact-float".

Local Open Scope Z_scope.

(** ** Python values *)

(** The values [json.loads] produces (and those the module builds into a
    request payload): [None], [bool], [int], [float], [str], [list] and
    [dict] with string keys. *)
Inductive value : Type :=
  | VNone
  | VBool (b : bool)
  | VInt (z : Z)
  | VFloat (f : float)
  | VStr (s : string)
  | VList (l : list value)
  | VDict (d : gmap string value).

(** Exceptions, by class.  [JSONDecodeError] is kept apart from
    [ValueError] (its base class): the module's [except] clauses name the
    subclass, and what they raise is a plain [ValueError]. *)
Inductive exn : Type :=
  | ValueError (msg : string)
  | JSONDecodeError (msg : string)
  | KeyError (key : string)
  | IndexError (msg : string)
  | TypeError
  | NotImplementedError (msg : string)
  | OtherError (cls msg : string).

Inductive result (A : Type) : Type :=
  | Ok (a : A)
  | Raise (e : exn).
Arguments Ok {A} a.
Arguments Raise {A} e.


(** ** Python's operators on values *)

(** [v[k]] for a string key [k].  Only a [dict] can be subscripted by a
    string; the other classes raise [TypeError] (CPython's message differs
    between versions and is left out). *)
Definition py_getitem (v : value) (k : string) : result value :=
  match v with
  | VDict d => match d !! k with Some x => Ok x | None => Raise (KeyError k) end
  | _ => Raise TypeError
  end.

(** [c[k]] for a message [c : Dict[str, str]]. *)
Definition dict_getitem (c : gmap string string) (k : string) : result string :=
  match c !! k with Some x => Ok x | None => Raise (KeyError k) end.

Fixpoint substr_in (k s : string) : bool :=
  if String.prefix k s then true
  else match s with
       | EmptyString => false
       | String _ s' => substr_in k s'
       end.

(** [k in v] for a string [k]: key membership on a [dict], element
    membership on a [list] (a [str] equals only an equal [str]), substring
    on a [str]; the remaining classes are not iterable. *)
Definition py_contains (k : string) (v : value) : result bool :=
  match v with
  | VDict d => Ok (bool_decide (is_Some (d !! k)))
  | VList l => Ok (existsb (fun x => match x with VStr s => String.eqb s k | _ => false end) l)
  | VStr s => Ok (substr_in k s)
  | _ => Raise TypeError
  end.

(** [v != 200].  An [int] compares by value, a [bool] as 0 or 1, a [float]
    numerically (200 is exactly representable; NaN differs from
    everything); a value of any other class is never equal to an [int]. *)
Definition py_ne_200 (v : value) : bool :=
  match v with
  | VInt z => negb (z =? 200)
  | VBool b => negb ((if b then 1 else 0) =? 200)
  | VFloat f => negb (PrimFloat.eqb f 200%float)
  | _ => true
  end.

(** [s.lower()].  Only the ASCII letters are mapped: the strings compared
    with the result (".jpeg", ".jpg", ".png") are ASCII, and no other
    character lowers to one of their letters. *)
Definition lower_ascii (c : ascii) : ascii :=
  let n := N_of_ascii c in
  if ((65 <=? n) && (n <=? 90))%N then ascii_of_N (n + 32) else c.

Fixpoint lower (s : string) : string :=
  match s with
  | EmptyString => EmptyString
  | String c s' => String (lower_ascii c) (lower s')
  end.

(** ** [pathlib]: the suffix of a path

    [Path(p).suffix] as [PurePosixPath] computes it: the path is split at
    "/", empty and "." components are dropped, the name is the last
    component, and the suffix is the part of the name from its last dot on,
    provided that dot is neither the first nor the last character. *)
Fixpoint components (s cur : string) : list string :=
  match s with
  | EmptyString => [cur]
  | String c s' =>
      if Ascii.eqb c "/" then cur :: components s' EmptyString
      else components s' (cur +:+ String c EmptyString)
  end.

Definition path_name (p : string) : string :=
  List.last
    (List.filter (fun x => negb (String.eqb x "" || String.eqb x ".")) (components p ""))
    "".

(** The tail of [s] from its last dot on, if it has a dot. *)
Fixpoint from_last_dot (s : string) : option string :=
  match s with
  | EmptyString => None
  | String c s' =>
      match from_last_dot s' with
      | Some t => Some t
      | None => if Ascii.eqb c "." then Some s else None
      end
  end.

Definition name_suffix (name : string) : string :=
  match name with
  | EmptyString => ""
  | String _ rest =>
      match from_last_dot rest with
      | Some (String d (String c t)) => String d (String c t)
      | _ => ""
      end
  end.

Definition suffix (p : string) : string := name_suffix (path_name p).

(** ** Requests, responses and events *)

(** The vision tools of [vision_agent.tools]. *)
Inductive Tool : Type := CLIP | GroundingDINO | GroundingSAM.

(** A content block of a structured message:
    [{"type": "text", "text": t}] or
    [{"type": "image_url", "image_url": {"url": u, "detail": d}}]. *)
Inductive ContentBlock : Type :=
  | TextBlock (text : string)
  | ImageUrlBlock (url detail : string).

(** The ["content"] of a message sent to the completion API: a plain
    string (the tool-selector factories) or a list of blocks ([chat] and
    [generate]). *)
Inductive Content : Type :=
  | PlainContent (s : string)
  | BlockContent (bs : list ContentBlock).

Record Message : Type := { role : string; content : Content }.

(** The keyword arguments of [client.chat.completions.create]. *)
Record CreateArgs : Type := {
  model : string;
  messages : list Message;
  max_tokens_arg : option Z;
  extra : gmap string value
}.

(** What the module reads of a completion: [choices[i].message.content]. *)
Record Choice : Type := { message_content : option string }.
Record ChatCompletion : Type := { choices : list Choice }.

(** The arguments of [requests.post] and what the module reads of its
    answer: the outcome of [res.json()]. *)
Record PostArgs : Type := {
  url : string;
  headers : gmap string string;
  json : gmap string value
}.
Record HttpResponse : Type := { response_json : result value }.

Inductive Event : Type :=
  | EvOpen (path : string)
  | EvLogError (msg : string)
  | EvPost (args : PostArgs)
  | EvClientNew
  | EvCreate (args : CreateArgs)
  | EvToolNew (t : Tool)
  | EvToolCall (t : Tool) (kwargs : gmap string value).

Definition trace : Type := list Event.

(** Whether an event reaches one of the remote model services. *)
Definition is_network (ev : Event) : bool :=
  match ev with
  | EvPost _ | EvCreate _ => true
  | _ => false
  end.

(** The collaborators the module calls and does not define.  Those with an
    effect answer from the history of events so far. *)
Record World : Type := {
  open_read : trace -> string -> result string;
  b64encode : string -> string;
  requests_post : trace -> PostArgs -> result HttpResponse;
  OpenAI_new : trace -> result unit;
  completions_create : trace -> CreateArgs -> result ChatCompletion;
  json_loads : string -> result value;
  str_of : value -> string;
  tool_new : trace -> Tool -> result unit;
  tool_call : trace -> Tool -> gmap string value -> result value;
  description : Tool -> string;
  usage_str : Tool -> string;
  SYSTEM_PROMPT : string;
  CHOOSE_PARAMS_format : string -> string -> string
}.

(** ** The monad of the embedding: a trace of events and an error result *)

Definition M (A : Type) : Type := trace -> result A * trace.

#[export] Instance result_ret : MRet result := fun A a => Ok a.
#[export] Instance result_bind : MBind result := fun A B f r =>
  match r with
  | Ok a => f a
  | Raise e => Raise e
  end.

#[export] Instance M_ret : MRet M := fun A a tr => (Ok a, tr).
#[export] Instance M_bind : MBind M := fun A B f m tr =>
  match m tr with
  | (Ok a, tr') => f a tr'
  | (Raise e, tr') => (Raise e, tr')
  end.

Definition raise {A : Type} (e : exn) : M A := fun tr => (Raise e, tr).

(** A pure computation that may raise. *)
Definition lift {A : Type} (r : result A) : M A := fun tr => (r, tr).

(** A call out of the module: the event is recorded and the oracle answers
    from the history before the call. *)
Definition call_out {A : Type} (ev : Event) (oracle : trace -> result A) : M A :=
  fun tr => (oracle tr, tr ++ [ev]).

(** [try: body  except <class>: handler], for the classes [catches] accepts. *)
Definition try_except {A : Type} (body : M A) (catches : exn -> bool) (handler : M A) : M A :=
  fun tr =>
    match body tr with
    | (Ok a, tr') => (Ok a, tr')
    | (Raise e, tr') => if catches e then handler tr' else (Raise e, tr')
    end.

Definition is_JSONDecodeError (e : exn) : bool :=
  match e with
  | JSONDecodeError _ => true
  | _ => false
  end.

Definition log_error (msg : string) : M unit := fun tr => (Ok tt, tr ++ [EvLogError msg]).

(** No event of the list reaches a remote service. *)
Definition no_network (evs : list Event) : Prop := Forall (fun ev => is_network ev = false) evs.

(** [if image:] for [image : Optional[Union[str, Path]]], the path given
    by its string: [None] and the empty string are false (a [Path] object
    never has an empty string).  The result is the path when the test
    succeeds. *)
Definition truthy (image : option string) : option string :=
  match image with
  | None => None
  | Some p => if String.eqb p "" then None else Some p
  end.

Definition _LLAVA_ENDPOINT : string :=
  "https://svtswgdnleslqcsjvilau4p6u40jwrkn.lambda-url.us-east-2.on.aws".

(** The input of the unified call: [Union[str, List[Dict[str, str]]]]. *)
Inductive Input : Type :=
  | InStr (s : string)
  | InChat (c : list (gmap string string)).

Record LLaVALMM : Type := { llava_model_name : string }.

Record OpenAILMM : Type := {
  model_name : string;
  max_tokens : Z;
  kwargs : gmap string value
}.

(** The messages [chat] and [generate] build before they send them:
    [{"role": r, "content": [block, ...]}]. *)
Record FixedMessage : Type := { fixed_role : string; fixed_content : list ContentBlock }.

Definition wire (m : FixedMessage) : Message :=
  {| role := fixed_role m; content := BlockContent (fixed_content m) |}.

(** The block both [chat] and [generate] append for an image. *)
Definition image_url_block (extension encoded_image : string) : ContentBlock :=
  ImageUrlBlock ("data:image/" +:+ extension +:+ ";base64," +:+ encoded_image) "low".

(** [str(x)] inside an f-string, for [x : Optional[str]]. *)
Definition str_opt (x : option string) : string :=
  match x with
  | Some s => s
  | None => "None"
  end.

Definition newline : string := String (ascii_of_nat 10) EmptyString.

(** The abstract class [LMM]. *)
Class LMM (C : Type) : Type := {
  generate : C -> string -> option string -> M value;
  chat : C -> list (gmap string string) -> option string -> M value;
  call : C -> Input -> option string -> M value
}.

(** ** The module, over a world *)

Section Lmm.

Variable W : World.

(** [encode_image]: the file is opened and read, its bytes are encoded. *)
Definition encode_image (image : string) : M string :=
  data ← call_out (EvOpen image) (fun tr => open_read W tr image);
  mret (b64encode W data).

(** *** [LLaVALMM] *)

Definition LLaVALMM_chat (self : LLaVALMM) (chat : list (gmap string string))
    (image : option string) : M value :=
  raise (NotImplementedError "Chat not supported for LLaVA").

(** [generate], lines 77 to 87: the payload is built and posted, and the
    answer is read as JSON. *)
Definition LLaVALMM_post (prompt : string) (image : option string)
    (temperature : float) (max_new_tokens : Z) : M value :=
  let data : gmap string value := {[ "prompt" := VStr prompt ]} in
  data ← match truthy image with
         | Some p => encoded ← encode_image p; mret (<[ "image" := VStr encoded ]> data)
         | None => mret data
         end;
  let data := <[ "temperature" := VFloat temperature ]> data in
  let data := <[ "max_new_tokens" := VInt max_new_tokens ]> data in
  let args := {| url := _LLAVA_ENDPOINT;
                 headers := {[ "Content-Type" := "application/json" ]};
                 json := data |} in
  res ← call_out (EvPost args) (fun tr => requests_post W tr args);
  lift (response_json res).

(** [generate], lines 88 to 93: the status test
    [("statusCode" in r and r["statusCode"] != 200) or "statusCode" not in r]
    with the short-circuit of [and] and [or], then the answer. *)
Definition LLaVALMM_unwrap (resp_json : value) : M value :=
  has ← lift (py_contains "statusCode" resp_json);
  not_200 ← (if has : bool
             then code ← lift (py_getitem resp_json "statusCode"); mret (py_ne_200 code)
             else mret false);
  failed ← (if not_200 : bool
            then mret true
            else has' ← lift (py_contains "statusCode" resp_json); mret (negb has'));
  if failed : bool
  then log_error ("Request failed: " +:+ str_of W resp_json);;
       raise (ValueError ("Request failed: " +:+ str_of W resp_json))
  else lift (py_getitem resp_json "data").

Definition LLaVALMM_generate_with (self : LLaVALMM) (prompt : string)
    (image : option string) (temperature : float) (max_new_tokens : Z) : M value :=
  resp_json ← LLaVALMM_post prompt image temperature max_new_tokens;
  LLaVALMM_unwrap resp_json.

(** [generate] with the defaults [temperature=0.1], [max_new_tokens=1500]. *)
Definition LLaVALMM_generate (self : LLaVALMM) (prompt : string)
    (image : option string) : M value :=
  LLaVALMM_generate_with self prompt image 0.1%float 1500.

Definition LLaVALMM_call (self : LLaVALMM) (input : Input) (image : option string) : M value :=
  match input with
  | InStr s => LLaVALMM_generate self s image
  | InChat c => LLaVALMM_chat self c image
  end.

#[export] Instance LLaVALMM_LMM : LMM LLaVALMM :=
  {| generate := LLaVALMM_generate; chat := LLaVALMM_chat; call := LLaVALMM_call |}.

(** *** [OpenAILMM] *)

(** [OpenAILMM(model_name, max_tokens, **kwargs)]; an argument left out
    takes its default.  [OpenAI()] builds the client from the ambient
    configuration and may fail. *)
Definition OpenAILMM_init (model_name : option string) (max_tokens : option Z)
    (kwargs : gmap string value) : M OpenAILMM :=
  let model_name := default "gpt-4-vision-preview" model_name in
  let max_tokens := default 1024 max_tokens in
  call_out EvClientNew (OpenAI_new W);;
  mret {| model_name := model_name; max_tokens := max_tokens; kwargs := kwargs |}.

(** [self.client.chat.completions.create] with the keyword arguments [args]. *)
Definition create (args : CreateArgs) : M ChatCompletion :=
  call_out (EvCreate args) (fun tr => completions_create W tr args).

(** [create(model=.., messages=.., max_tokens=.., **kw)]: a key of [kw]
    that repeats one of the explicit keywords is a [TypeError] at the call
    site, before [create] is entered. *)
Definition create_kw (model : string) (messages : list Message) (max_tokens : Z)
    (kw : gmap string value) : M ChatCompletion :=
  if bool_decide (is_Some (kw !! "model")) || bool_decide (is_Some (kw !! "messages"))
     || bool_decide (is_Some (kw !! "max_tokens"))
  then raise TypeError
  else create {| model := model; messages := messages;
                 max_tokens_arg := Some max_tokens; extra := kw |}.

(** [response.choices[0].message.content]. *)
Definition first_content (response : ChatCompletion) : result (option string) :=
  match choices response with
  | c :: _ => Ok (message_content c)
  | [] => Raise (IndexError "list index out of range")
  end.

(** An [Optional[str]] as a value. *)
Definition opt_value (x : option string) : value :=
  match x with
  | Some s => VStr s
  | None => VNone
  end.

(** The loop of [chat]: each message becomes
    [{"role": c["role"], "content": [{"type": "text", "text": c["content"]}]}]. *)
Fixpoint fix_chat (chat : list (gmap string string)) : result (list FixedMessage) :=
  match chat with
  | [] => Ok []
  | c :: rest =>
      r ← dict_getitem c "role";
      t ← dict_getitem c "content";
      fixed ← fix_chat rest;
      Ok ({| fixed_role := r; fixed_content := [TextBlock t] |} :: fixed)
  end.

(** The extension test of [chat]. *)
Definition chat_extension (extension : string) : result string :=
  if String.eqb (lower extension) ".jpeg" || String.eqb (lower extension) ".jpg"
  then Ok "jpg"
  else if String.eqb (lower extension) ".png"
  then Ok "png"
  else Raise (ValueError ("Unsupported image extension: " +:+ extension)).

(** [fixed_chat[0]["content"].append(block)]. *)
Definition append_first (fixed_chat : list FixedMessage) (block : ContentBlock)
    : result (list FixedMessage) :=
  match fixed_chat with
  | m :: rest =>
      Ok ({| fixed_role := fixed_role m; fixed_content := fixed_content m ++ [block] |} :: rest)
  | [] => Raise (IndexError "list index out of range")
  end.

Definition OpenAILMM_chat (self : OpenAILMM) (chat : list (gmap string string))
    (image : option string) : M value :=
  fixed_chat ← lift (fix_chat chat);
  fixed_chat ← match truthy image with
               | Some p =>
                   extension ← lift (chat_extension (suffix p));
                   encoded_image ← encode_image p;
                   lift (append_first fixed_chat (image_url_block extension encoded_image))
               | None => mret fixed_chat
               end;
  response ← create_kw (model_name self) (wire <$> fixed_chat) (max_tokens self) (kwargs self);
  text ← lift (first_content response);
  mret (opt_value text).

Definition OpenAILMM_generate (self : OpenAILMM) (prompt : string)
    (image : option string) : M value :=
  let message := [ {| fixed_role := "user"; fixed_content := [TextBlock prompt] |} ] in
  message ← match truthy image with
            | Some p =>
                let extension := suffix p in
                encoded_image ← encode_image p;
                lift (append_first message (image_url_block extension encoded_image))
            | None => mret message
            end;
  response ← create_kw (model_name self) (wire <$> message) (max_tokens self) (kwargs self);
  text ← lift (first_content response);
  mret (opt_value text).

Definition OpenAILMM_call (self : OpenAILMM) (input : Input) (image : option string) : M value :=
  match input with
  | InStr s => OpenAILMM_generate self s image
  | InChat c => OpenAILMM_chat self c image
  end.

#[export] Instance OpenAILMM_LMM : LMM OpenAILMM :=
  {| generate := OpenAILMM_generate; chat := OpenAILMM_chat; call := OpenAILMM_call |}.


(** *** The tool-selector factories *)

(** The lambda the factories return, for the tool [T] and the parsed
    [params]: the tool is constructed, then [params["prompt"]] is read and
    the tool is called with the dictionary of "prompt" and "image" as
    its keyword arguments.  It is a function into [M]: its body runs when
    it is called. *)
Definition tool_closure (T : Tool) (params : value) : value -> M value :=
  fun x =>
    call_out (EvToolNew T) (fun tr => tool_new W tr T);;
    p ← lift (py_getitem params "prompt");
    let kw : gmap string value := <[ "image" := x ]> {[ "prompt" := p ]} in
    call_out (EvToolCall T kw) (fun tr => tool_call W tr T kw).

(** [generate_classifier], [generate_detector] and [generate_segmentor] are
    the same text up to the tool they name; [tool_selector] is that text
    with the tool as a parameter. *)
Definition tool_selector (T : Tool) (self : OpenAILMM) (question : string)
    : M (value -> M value) :=
  let api_doc := description W T +:+ newline +:+ usage_str W T in
  let prompt := CHOOSE_PARAMS_format W api_doc question in
  response ← create {| model := model_name self;
                       messages := [ {| role := "system"; content := PlainContent (SYSTEM_PROMPT W) |};
                                     {| role := "user"; content := PlainContent prompt |} ];
                       max_tokens_arg := None;
                       extra := ∅ |};
  params ← try_except
             (text ← lift (first_content response);
              parsed ← lift (match text with
                             | Some s => json_loads W s
                             | None => Raise TypeError
                             end);
              lift (py_getitem parsed "Parameters"))
             is_JSONDecodeError
             (text ← lift (first_content response);
              log_error ("Failed to decode response: " +:+ str_opt text);;
              raise (ValueError "Failed to decode response"));
  mret (tool_closure T params).

Definition generate_classifier : OpenAILMM -> string -> M (value -> M value) :=
  tool_selector CLIP.
Definition generate_detector : OpenAILMM -> string -> M (value -> M value) :=
  tool_selector GroundingDINO.
Definition generate_segmentor : OpenAILMM -> string -> M (value -> M value) :=
  tool_selector GroundingSAM.

(** *** [get_lmm] *)

(** An object of one of the two concrete classes. *)
Inductive LMMObject : Type :=
  | AnOpenAILMM (o : OpenAILMM)
  | ALLaVALMM (l : LLaVALMM).

Definition get_lmm (name : string) : M LMMObject :=
  if String.eqb name "openai"
  then o ← OpenAILMM_init (Some name) None ∅; mret (AnOpenAILMM o)
  else if String.eqb name "llava"
  then mret (ALLaVALMM {| llava_model_name := name |})
  else raise (ValueError ("Unknown LMM: " +:+ name +:+ ", current support openai, llava")).

(** Method lookup on an object goes to its class. *)
#[export] Instance LMMObject_LMM : LMM LMMObject :=
  {| generate := fun self => match self with
                             | AnOpenAILMM o => generate o
                             | ALLaVALMM l => generate l
                             end;
     chat := fun self => match self with
                         | AnOpenAILMM o => chat o
                         | ALLaVALMM l => chat l
                         end;
     call := fun self => match self with
                         | AnOpenAILMM o => call o
                         | ALLaVALMM l => call l
                         end |}.

End Lmm.

(** ** Vocabulary of the statements *)

(** The error taxonomy of the specification, as the exceptions the module
    raises. *)
Definition RequestError (body : string) : exn := ValueError ("Request failed: " +:+ body).
Definition UnsupportedOperation : exn := NotImplementedError "Chat not supported for LLaVA".
Definition UnsupportedImageFormat (extension : string) : exn :=
  ValueError ("Unsupported image extension: " +:+ extension).
Definition ResponseParseError : exn := ValueError "Failed to decode response".
Definition UnknownBackend (name : string) : exn :=
  ValueError ("Unknown LMM: " +:+ name +:+ ", current support openai, llava").

(** The passthrough options repeat none of the keywords [chat] and
    [generate] pass themselves. *)
Definition kwargs_clean (self : OpenAILMM) : Prop :=
  kwargs self !! "model" = None ∧ kwargs self !! "messages" = None
  ∧ kwargs self !! "max_tokens" = None.

(** A message has the two keys the loop of [chat] reads. *)
Definition well_formed (c : gmap string string) : Prop :=
  is_Some (c !! "role") ∧ is_Some (c !! "content").

(** [m] is [c] with its content as a single text block. *)
Definition text_only (c : gmap string string) (m : FixedMessage) : Prop :=
  ∃ r t, c !! "role" = Some r ∧ c !! "content" = Some t
         ∧ m = {| fixed_role := r; fixed_content := [TextBlock t] |}.

(** [m] is [c] with a text block followed by the image block [b]. *)
Definition text_and_image (b : ContentBlock) (c : gmap string string) (m : FixedMessage) : Prop :=
  ∃ r t, c !! "role" = Some r ∧ c !! "content" = Some t
         ∧ m = {| fixed_role := r; fixed_content := [TextBlock t; b] |}.

(** What [chat] and [generate] return from the outcome of [create]:
    [response.choices[0].message.content]. *)
Definition first_text (r : result ChatCompletion) : result value :=
  response ← r; text ← first_content response; Ok (opt_value text).

Arguments first_content response : simpl never.

(** The three factories and the tool each one names. *)
Definition factories (W : World)
    : list (Tool * (OpenAILMM -> string -> M (value -> M value))) :=
  [ (CLIP, generate_classifier W);
    (GroundingDINO, generate_detector W);
    (GroundingSAM, generate_segmentor W) ].

(** The request a factory sends: the system instruction and the
    interpolated prompt, with neither a token limit nor passthrough
    options. *)
Definition selector_request (W : World) (T : Tool) (self : OpenAILMM) (question : string)
    : CreateArgs :=
  {| model := model_name self;
     messages :=
       [ {| role := "system"; content := PlainContent (SYSTEM_PROMPT W) |};
         {| role := "user";
            content := PlainContent
                         (CHOOSE_PARAMS_format W
                            (description W T +:+ newline +:+ usage_str W T) question) |} ];
     max_tokens_arg := None;
     extra := ∅ |}.

(** The request [chat] and [generate] send for the messages they built. *)
Definition chat_request (self : OpenAILMM) (fixed : list FixedMessage) : CreateArgs :=
  {| model := model_name self;
     messages := wire <$> fixed;
     max_tokens_arg := Some (max_tokens self);
     extra := kwargs self |}.

(** The lines [chat] and [generate] end with: the request is sent and the
    text of the first choice returned. *)
Definition send (W : World) (self : OpenAILMM) (fixed : list FixedMessage) : M value :=
  create_kw W (model_name self) (wire <$> fixed) (max_tokens self) (kwargs self)
    ≫= fun response => lift (first_content response) ≫= fun text => mret (opt_value text).

(** ** A small world to run the module in *)

Module Demo.

Definition quoted (s : string) : string :=
  String (ascii_of_nat 34) s +:+ String (ascii_of_nat 34) EmptyString.

(** The text [{"Parameters": {"prompt": "cat"}}]. *)
Definition cat_text : string :=
  "{" +:+ quoted "Parameters" +:+ ": {" +:+ quoted "prompt" +:+ ": " +:+ quoted "cat" +:+ "}}".

Definition cat_value : value :=
  VDict {[ "Parameters" := VDict {[ "prompt" := VStr "cat" ]} ]}.

(** A parser that knows three texts. *)
Definition loads (s : string) : result value :=
  if String.eqb s cat_text then Ok cat_value
  else if String.eqb s "{}" then Ok (VDict ∅)
  else if String.eqb s "[]" then Ok (VList [])
  else Raise (JSONDecodeError "Expecting value").

(** The hosted endpoint answers [posted]; the completion API answers with
    the single choice [answer]; every file but "missing.png" can be read. *)
Definition world (posted : value) (answer : string) : World :=
  {| open_read := fun _ p =>
       if String.eqb p "missing.png" then Raise (OtherError "FileNotFoundError" p)
       else Ok ("<" +:+ p +:+ ">");
     b64encode := fun s => "b64" +:+ s;
     requests_post := fun _ _ => Ok {| response_json := Ok posted |};
     OpenAI_new := fun _ => Ok tt;
     completions_create := fun _ _ => Ok {| choices := [ {| message_content := Some answer |} ] |};
     json_loads := loads;
     str_of := fun _ => "<dict>";
     tool_new := fun _ _ => Ok tt;
     tool_call := fun _ _ _ => Ok (VStr "result");
     description := fun _ => "description";
     usage_str := fun _ => "usage";
     SYSTEM_PROMPT := "system";
     CHOOSE_PARAMS_format := fun api_doc question => api_doc +:+ newline +:+ question |}.

Definition client : OpenAILMM :=
  {| model_name := "gpt-4-vision-preview"; max_tokens := 1024; kwargs := ∅ |}.

Definition user_message (text : string) : gmap string string :=
  <[ "content" := text ]> {[ "role" := "user" ]}.

End Demo.

(** ** Vocabulary of the further properties *)

(** Two messages with the same "role" and the same "content". *)
Definition same_role_content (c c' : gmap string string) : Prop :=
  c !! "role" = c' !! "role" ∧ c !! "content" = c' !! "content".

(** The content blocks of all the messages of a request. *)
Definition request_blocks (args : CreateArgs) : list ContentBlock :=
  flat_map (fun m => match content m with
                     | BlockContent bs => bs
                     | PlainContent _ => []
                     end) (messages args).

(** A block [chat] may send: a text block, or an image block of low
    detail whose URL is a data URI with the tag "jpg" or "png". *)
Definition chat_block_ok (b : ContentBlock) : Prop :=
  match b with
  | TextBlock _ => True
  | ImageUrlBlock url detail =>
      detail = "low"
      ∧ ∃ tag encoded : string,
          (tag = "jpg" ∨ tag = "png")
          ∧ url = "data:image/" +:+ tag +:+ ";base64," +:+ encoded
  end.

(** The model's answer could not be decoded: the completion has a first
    choice with text, and [json.loads] raises [JSONDecodeError] on it. *)
Definition decode_failed (W : World) (tr : trace) (args : CreateArgs) (text : string) : Prop :=
  ∃ (response : ChatCompletion) (msg : string),
    completions_create W tr args = Ok response
    ∧ first_content response = Ok (Some text)
    ∧ json_loads W text = Raise (JSONDecodeError msg).

(** An event of a vision tool. *)
Definition is_tool_event (ev : Event) : bool :=
  match ev with
  | EvToolNew _ | EvToolCall _ _ => true
  | _ => false
  end.

(** A client whose passthrough options repeat the keyword [model]. *)
Definition clashing_client : OpenAILMM :=
  {| model_name := "gpt-4-vision-preview"; max_tokens := 1024;
     kwargs := {[ "model" := VStr "gpt-4" ]} |}.

(** ** The helpers on small inputs *)

Example py_ne_200_float : py_ne_200 (VFloat 200%float) = false.
Proof. reflexivity. Qed.
Example py_ne_200_str : py_ne_200 (VStr "200") = true.
Proof. reflexivity. Qed.

Example suffix_png : suffix "img.png" = ".png".
Proof. reflexivity. Qed.
Example suffix_upper : suffix "/data/shots/Cat.JPEG" = ".JPEG".
Proof. reflexivity. Qed.
Example suffix_two : suffix "a/b.tar.gz" = ".gz".
Proof. reflexivity. Qed.
Example suffix_hidden : suffix "a/.bashrc" = "".
Proof. reflexivity. Qed.
Example suffix_dir : suffix "a.d/file" = "".
Proof. reflexivity. Qed.
Example suffix_trailing : suffix "a/b.png/" = ".png".
Proof. reflexivity. Qed.
Example lower_suffix : lower (suffix "x/Cat.JpG") = ".jpg".
Proof. reflexivity. Qed.

(** ** Running the monad *)

Lemma bind_ok {A B : Type} (m : M A) (f : A -> M B) (tr tr' : trace) (a : A) :
  m tr = (Ok a, tr') → (m ≫= f) tr = f a tr'.
Proof. intros H. unfold mbind, M_bind. by rewrite H. Qed.

Lemma bind_raise {A B : Type} (m : M A) (f : A -> M B) (tr tr' : trace) (e : exn) :
  m tr = (Raise e, tr') → (m ≫= f) tr = (Raise e, tr').
Proof. intros H. unfold mbind, M_bind. by rewrite H. Qed.

(** ** The unified call *)

(** C7: for both client classes and every optional image, the unified call
    on a string is [generate] on that string and image, and on a list of
    messages it is [chat] on that list and image: the same computation, so
    the same value or error and the same events from every trace. *)
Theorem call_dispatch (W : World) (l : LLaVALMM) (o : OpenAILMM)
    (s : string) (c : list (gmap string string)) (image : option string) :
  LLaVALMM_call W l (InStr s) image = LLaVALMM_generate W l s image
  ∧ LLaVALMM_call W l (InChat c) image = LLaVALMM_chat l c image
  ∧ OpenAILMM_call W o (InStr s) image = OpenAILMM_generate W o s image
  ∧ OpenAILMM_call W o (InChat c) image = OpenAILMM_chat W o c image.
Proof. repeat split; reflexivity. Qed.

Lemma object_call_dispatch (W : World) (obj : LMMObject)
    (s : string) (c : list (gmap string string)) (image : option string) :
  call (LMM := LMMObject_LMM W) obj (InStr s) image
    = generate (LMM := LMMObject_LMM W) obj s image
  ∧ call (LMM := LMMObject_LMM W) obj (InChat c) image
    = chat (LMM := LMMObject_LMM W) obj c image.
Proof. destruct obj; split; reflexivity. Qed.

(** ** The client factory *)

Lemma OpenAILMM_init_ok (W : World) (model_name : option string) (max_tokens : option Z)
    (kw : gmap string value) (tr : trace) :
  OpenAI_new W tr = Ok tt →
  OpenAILMM_init W model_name max_tokens kw tr
  = (Ok {| model_name := default "gpt-4-vision-preview" model_name;
           max_tokens := default 1024 max_tokens;
           kwargs := kw |}, tr ++ [EvClientNew]).
Proof.
  intros Hnew. unfold OpenAILMM_init.
  erewrite bind_ok; [reflexivity |].
  unfold call_out. by rewrite Hnew.
Qed.

Lemma get_lmm_other (W : World) (name : string) (tr : trace) :
  name ≠ "openai" → name ≠ "llava" →
  get_lmm W name tr = (Raise (UnknownBackend name), tr).
Proof.
  intros Ho Hl. unfold get_lmm.
  destruct (String.eqb_spec name "openai") as [->|_]; [done |].
  destruct (String.eqb_spec name "llava") as [->|_]; [done |].
  reflexivity.
Qed.

(** C6: [get_lmm "openai"] returns an [OpenAILMM] object (once [OpenAI()]
    has built its client), [get_lmm "llava"] returns a [LLaVALMM] object,
    both of a class with [generate], [chat] and the unified call, and any
    other name raises the [ValueError] whose message names the supported
    backends, "openai, llava". *)
Theorem get_lmm_backends (W : World) (tr : trace) :
  (OpenAI_new W tr = Ok tt →
     ∃ o : OpenAILMM,
       get_lmm W "openai" tr = (Ok (AnOpenAILMM o), tr ++ [EvClientNew])
       ∧ generate (LMM := LMMObject_LMM W) (AnOpenAILMM o) = OpenAILMM_generate W o
       ∧ chat (LMM := LMMObject_LMM W) (AnOpenAILMM o) = OpenAILMM_chat W o
       ∧ call (LMM := LMMObject_LMM W) (AnOpenAILMM o) = OpenAILMM_call W o)
  ∧ (∃ l : LLaVALMM,
       get_lmm W "llava" tr = (Ok (ALLaVALMM l), tr)
       ∧ generate (LMM := LMMObject_LMM W) (ALLaVALMM l) = LLaVALMM_generate W l
       ∧ chat (LMM := LMMObject_LMM W) (ALLaVALMM l) = LLaVALMM_chat l
       ∧ call (LMM := LMMObject_LMM W) (ALLaVALMM l) = LLaVALMM_call W l)
  ∧ (∀ name : string, name ≠ "openai" → name ≠ "llava" →
       get_lmm W name tr
       = (Raise (ValueError ("Unknown LMM: " +:+ name +:+ ", current support openai, llava")), tr)).
Proof.
  split; [| split].
  - intros Hnew. eexists. split; [| done].
    unfold get_lmm. simpl.
    erewrite bind_ok; [reflexivity |]. by apply OpenAILMM_init_ok.
  - eexists. split; [reflexivity | done].
  - intros name Ho Hl. by apply get_lmm_other.
Qed.

Lemma get_lmm_backends_witness :
  (∃ o : OpenAILMM,
     get_lmm (Demo.world VNone "") "openai" [] = (Ok (AnOpenAILMM o), [EvClientNew]))
  ∧ get_lmm (Demo.world VNone "") "gpt-4" []
    = (Raise (ValueError "Unknown LMM: gpt-4, current support openai, llava"), []).
Proof.
  split.
  - destruct (proj1 (get_lmm_backends (Demo.world VNone "") []) eq_refl) as (o & Ho & _).
    exists o. exact Ho.
  - apply (proj2 (proj2 (get_lmm_backends (Demo.world VNone "") [])) "gpt-4").
    + discriminate.
    + discriminate.
Defined.

(** C9: [get_lmm "openai"] passes the backend name on as the model name,
    so the client it builds has model name "openai" and not the default
    "gpt-4-vision-preview"; the default is the model name exactly when the
    constructor is called without a model name. *)
Theorem get_lmm_openai_model_name (W : World) (tr : trace) :
  OpenAI_new W tr = Ok tt →
  (∃ o : OpenAILMM,
     get_lmm W "openai" tr = (Ok (AnOpenAILMM o), tr ++ [EvClientNew])
     ∧ model_name o = "openai" ∧ model_name o ≠ "gpt-4-vision-preview")
  ∧ (∀ (max_tokens : option Z) (kw : gmap string value),
       ∃ o : OpenAILMM,
         OpenAILMM_init W None max_tokens kw tr = (Ok o, tr ++ [EvClientNew])
         ∧ model_name o = "gpt-4-vision-preview")
  ∧ (∀ (name : string) (max_tokens : option Z) (kw : gmap string value),
       ∃ o : OpenAILMM,
         OpenAILMM_init W (Some name) max_tokens kw tr = (Ok o, tr ++ [EvClientNew])
         ∧ model_name o = name).
Proof.
  intros Hnew. split; [| split].
  - eexists. split; [| split].
    + unfold get_lmm. simpl.
      erewrite bind_ok; [reflexivity |]. by apply OpenAILMM_init_ok.
    + reflexivity.
    + discriminate.
  - intros mt kw. eexists. split; [by apply OpenAILMM_init_ok | reflexivity].
  - intros name mt kw. eexists. split; [by apply OpenAILMM_init_ok | reflexivity].
Qed.

Lemma get_lmm_openai_model_name_witness :
  ∃ o : OpenAILMM,
    get_lmm (Demo.world VNone "") "openai" [] = (Ok (AnOpenAILMM o), [EvClientNew])
    ∧ model_name o = "openai".
Proof.
  destruct (proj1 (get_lmm_openai_model_name (Demo.world VNone "") [] eq_refl))
    as (o & Ho & Hname & _).
  exists o. split; [exact Ho | exact Hname].
Defined.

(** ** The hosted-endpoint client *)

(** The status test on a JSON object, case by case. *)
Lemma unwrap_no_status (W : World) (d : gmap string value) (tr : trace) :
  d !! "statusCode" = None →
  LLaVALMM_unwrap W (VDict d) tr
  = (Raise (RequestError (str_of W (VDict d))),
     tr ++ [EvLogError ("Request failed: " +:+ str_of W (VDict d))]).
Proof.
  intros Hd. unfold LLaVALMM_unwrap, mbind, M_bind, lift; simpl.
  rewrite Hd. rewrite bool_decide_false by (intros [? ?]; discriminate).
  reflexivity.
Qed.

Lemma unwrap_status (W : World) (d : gmap string value) (code : value) (tr : trace) :
  d !! "statusCode" = Some code →
  LLaVALMM_unwrap W (VDict d) tr
  = if py_ne_200 code
    then (Raise (RequestError (str_of W (VDict d))),
          tr ++ [EvLogError ("Request failed: " +:+ str_of W (VDict d))])
    else (py_getitem (VDict d) "data", tr).
Proof.
  intros Hd. unfold LLaVALMM_unwrap, mbind, M_bind, lift; simpl.
  rewrite Hd. rewrite bool_decide_true by eauto.
  simpl. destruct (py_ne_200 code); reflexivity.
Qed.




(** A float status 200.0 is equal to 200; a missing "data" under status
    200 is a [KeyError]; a missing status is a failure. *)
Example llava_float_status :
  fst (LLaVALMM_generate
         (Demo.world (VDict (<[ "data" := VStr "X" ]> {[ "statusCode" := VFloat 200%float ]})) "")
         {| llava_model_name := "llava" |} "hi" None [])
  = Ok (VStr "X").
Proof. reflexivity. Qed.

Example llava_no_data :
  fst (LLaVALMM_generate (Demo.world (VDict {[ "statusCode" := VInt 200 ]}) "")
         {| llava_model_name := "llava" |} "hi" None [])
  = Raise (KeyError "data").
Proof. reflexivity. Qed.

Example llava_no_status :
  fst (LLaVALMM_generate (Demo.world (VDict {[ "data" := VStr "X" ]}) "")
         {| llava_model_name := "llava" |} "hi" (Some "img.png") [])
  = Raise (ValueError "Request failed: <dict>").
Proof. reflexivity. Qed.

(** [chat] of the hosted-endpoint client always raises, without an event. *)
Lemma llava_chat_unsupported (self : LLaVALMM) (c : list (gmap string string))
    (image : option string) (tr : trace) :
  LLaVALMM_chat self c image tr = (Raise UnsupportedOperation, tr).
Proof. reflexivity. Qed.

(** ** The tool-selector factories *)

Lemma factories_selector (W : World) (T : Tool)
    (factory : OpenAILMM -> string -> M (value -> M value)) :
  (T, factory) ∈ factories W → factory = tool_selector W T.
Proof.
  unfold factories. intros Hin.
  repeat (apply elem_of_cons in Hin as [Heq | Hin]; [by inversion Heq |]).
  by apply elem_of_nil in Hin.
Qed.

Lemma classifier_in_factories (W : World) : (CLIP, generate_classifier W) ∈ factories W.
Proof. apply list_elem_of_here. Qed.

Lemma detector_in_factories (W : World) : (GroundingDINO, generate_detector W) ∈ factories W.
Proof. apply list_elem_of_further, list_elem_of_here. Qed.

Lemma segmentor_in_factories (W : World) : (GroundingSAM, generate_segmentor W) ∈ factories W.
Proof. do 2 apply list_elem_of_further. apply list_elem_of_here. Qed.

Section Selector.

Variables (W : World) (T : Tool) (self : OpenAILMM) (question : string).
Variables (tr : trace) (response : ChatCompletion) (text : string).

Hypothesis Hcreate : completions_create W tr (selector_request W T self question) = Ok response.
Hypothesis Htext : first_content response = Ok (Some text).

Lemma selector_not_json (msg : string) :
  json_loads W text = Raise (JSONDecodeError msg) →
  tool_selector W T self question tr
  = (Raise ResponseParseError,
     tr ++ [EvCreate (selector_request W T self question);
            EvLogError ("Failed to decode response: " +:+ text)]).
Proof using Hcreate Htext.
  intros Hloads.
  unfold tool_selector, create, call_out, try_except, lift, mbind, M_bind; simpl.
  fold (selector_request W T self question). rewrite Hcreate, Htext, Hloads.
  simpl. by rewrite <- app_assoc.
Qed.

Lemma selector_loads_raises (e : exn) :
  json_loads W text = Raise e → is_JSONDecodeError e = false →
  tool_selector W T self question tr
  = (Raise e, tr ++ [EvCreate (selector_request W T self question)]).
Proof using Hcreate Htext.
  intros Hloads He.
  unfold tool_selector, create, call_out, try_except, lift, mbind, M_bind; simpl.
  fold (selector_request W T self question). rewrite Hcreate, Htext, Hloads, He.
  reflexivity.
Qed.

Lemma selector_parsed (parsed : value) :
  json_loads W text = Ok parsed →
  tool_selector W T self question tr
  = match py_getitem parsed "Parameters" with
    | Ok params =>
        (Ok (tool_closure W T params), tr ++ [EvCreate (selector_request W T self question)])
    | Raise e => (Raise e, tr ++ [EvCreate (selector_request W T self question)])
    end.
Proof using Hcreate Htext.
  intros Hloads.
  unfold tool_selector, create, call_out, try_except, lift, mbind, M_bind; simpl.
  fold (selector_request W T self question). rewrite Hcreate, Htext, Hloads.
  destruct parsed as [| | | | | |d]; simpl; try reflexivity.
  destruct (d !! "Parameters"); reflexivity.
Qed.

End Selector.

(** The closure, run: the tool is constructed, [params["prompt"]] is read,
    and the tool is called with the two keyword arguments. *)
Lemma tool_closure_run (W : World) (T : Tool) (pd : gmap string value) (p x : value)
    (tr : trace) :
  pd !! "prompt" = Some p → tool_new W tr T = Ok tt →
  tool_closure W T (VDict pd) x tr
  = (tool_call W (tr ++ [EvToolNew T]) T (<[ "image" := x ]> {[ "prompt" := p ]}),
     tr ++ [EvToolNew T; EvToolCall T (<[ "image" := x ]> {[ "prompt" := p ]})]).
Proof.
  intros Hp Hnew.
  unfold tool_closure, call_out, lift, mbind, M_bind; simpl.
  rewrite Hnew, Hp. by rewrite <- app_assoc.
Qed.

(** C1, as the code has it: for each of the three factories, when the
    text the model returned is not valid JSON ([json.loads] raises
    [JSONDecodeError]) the factory logs "Failed to decode response: "
    followed by the raw text and then raises the [ValueError] "Failed to
    decode response"; when the text parses to a JSON object without a
    "Parameters" key, the [KeyError] of the subscript leaves the factory
    and nothing is logged. *)
Theorem selector_parse_failure (W : World) (T : Tool)
    (factory : OpenAILMM -> string -> M (value -> M value))
    (self : OpenAILMM) (question : string)
    (tr : trace) (response : ChatCompletion) (text : string) :
  (T, factory) ∈ factories W →
  completions_create W tr (selector_request W T self question) = Ok response →
  first_content response = Ok (Some text) →
  (∀ msg : string, json_loads W text = Raise (JSONDecodeError msg) →
     factory self question tr
     = (Raise (ValueError "Failed to decode response"),
        tr ++ [EvCreate (selector_request W T self question);
               EvLogError ("Failed to decode response: " +:+ text)]))
  ∧ (∀ d : gmap string value, json_loads W text = Ok (VDict d) → d !! "Parameters" = None →
       factory self question tr
       = (Raise (KeyError "Parameters"),
          tr ++ [EvCreate (selector_request W T self question)])).
Proof.
  intros Hin Hcreate Htext. rewrite (factories_selector W T factory Hin). split.
  - intros msg Hloads.
    by rewrite (selector_not_json W T self question tr response text Hcreate Htext msg Hloads).
  - intros d Hloads Hd.
    rewrite (selector_parsed W T self question tr response text Hcreate Htext _ Hloads).
    simpl. by rewrite Hd.
Qed.

Lemma selector_parse_failure_witness :
  generate_detector (Demo.world VNone "a cat, I think") Demo.client "what is it?" []
  = (Raise (ValueError "Failed to decode response"),
     [EvCreate (selector_request (Demo.world VNone "a cat, I think") GroundingDINO
                  Demo.client "what is it?");
      EvLogError "Failed to decode response: a cat, I think"])
  ∧ generate_detector (Demo.world VNone "{}") Demo.client "what is it?" []
    = (Raise (KeyError "Parameters"),
       [EvCreate (selector_request (Demo.world VNone "{}") GroundingDINO
                    Demo.client "what is it?")]).
Proof.
  split.
  - apply (proj1 (selector_parse_failure (Demo.world VNone "a cat, I think") GroundingDINO
                    (generate_detector (Demo.world VNone "a cat, I think"))
                    Demo.client "what is it?" []
                    {| choices := [ {| message_content := Some "a cat, I think" |} ] |}
                    "a cat, I think"
                    (detector_in_factories _) eq_refl eq_refl)
             "Expecting value").
    reflexivity.
  - apply (proj2 (selector_parse_failure (Demo.world VNone "{}") GroundingDINO
                    (generate_detector (Demo.world VNone "{}"))
                    Demo.client "what is it?" []
                    {| choices := [ {| message_content := Some "{}" |} ] |}
                    "{}"
                    (detector_in_factories _) eq_refl eq_refl)
             ∅).
    + reflexivity.
    + reflexivity.
Defined.

(** C1 as stated fails on a JSON object without "Parameters": the model
    answers "{}", which parses to the empty object, and the classifier
    factory raises [KeyError], not the [ValueError] of a parse failure,
    and logs nothing. *)
Lemma selector_missing_parameters_counterexample :
  let W := Demo.world VNone "{}" in
  let run := generate_classifier W Demo.client "what is it?" [] in
  json_loads W "{}" = Ok (VDict ∅)
  ∧ (∅ : gmap string value) !! "Parameters" = None
  ∧ fst run = Raise (KeyError "Parameters")
  ∧ fst run ≠ Raise ResponseParseError
  ∧ Forall (fun ev => ∀ msg, ev ≠ EvLogError msg) (snd run).
Proof.
  repeat split.
  - discriminate.
  - repeat constructor; discriminate.
Qed.

(** C5: for each of the three factories, when the model's text parses to
    an object whose "Parameters" holds an object with a "prompt" (as
    [{"Parameters": {"prompt": "cat"}}] does), the factory returns a
    closure, and the closure applied to an image constructs the tool the
    factory names and calls it with the keyword arguments [prompt], the
    parsed value, and [image], the closure's argument, and no other. *)
Theorem selector_closure_call (W : World) (T : Tool)
    (factory : OpenAILMM -> string -> M (value -> M value))
    (self : OpenAILMM) (question : string)
    (tr : trace) (response : ChatCompletion) (text : string)
    (d pd : gmap string value) (p : value) :
  (T, factory) ∈ factories W →
  completions_create W tr (selector_request W T self question) = Ok response →
  first_content response = Ok (Some text) →
  json_loads W text = Ok (VDict d) →
  d !! "Parameters" = Some (VDict pd) →
  pd !! "prompt" = Some p →
  ∃ f : value -> M value,
    factory self question tr = (Ok f, tr ++ [EvCreate (selector_request W T self question)])
    ∧ ∀ (x : value) (tr2 : trace), tool_new W tr2 T = Ok tt →
        let kw : gmap string value := <[ "image" := x ]> {[ "prompt" := p ]} in
        f x tr2 = (tool_call W (tr2 ++ [EvToolNew T]) T kw,
                   tr2 ++ [EvToolNew T; EvToolCall T kw])
        ∧ dom kw = {[ "prompt"; "image" ]}
        ∧ kw !! "prompt" = Some p ∧ kw !! "image" = Some x.
Proof.
  intros Hin Hcreate Htext Hloads Hd Hp. rewrite (factories_selector W T factory Hin).
  exists (tool_closure W T (VDict pd)). split.
  - rewrite (selector_parsed W T self question tr response text Hcreate Htext _ Hloads).
    simpl. by rewrite Hd.
  - intros x tr2 Hnew kw. split; [| split; [| split]].
    + by apply tool_closure_run.
    + unfold kw. rewrite dom_insert_L, dom_singleton_L. set_solver.
    + unfold kw. by rewrite lookup_insert_ne, lookup_singleton_eq.
    + unfold kw. by rewrite lookup_insert_eq.
Qed.

Lemma selector_closure_call_witness :
  let W := Demo.world VNone Demo.cat_text in
  let kw : gmap string value := <[ "image" := VStr "img.png" ]> {[ "prompt" := VStr "cat" ]} in
  ∃ f : value -> M value,
    generate_segmentor W Demo.client "where is the cat?" []
    = (Ok f, [EvCreate (selector_request W GroundingSAM Demo.client "where is the cat?")])
    ∧ f (VStr "img.png") []
      = (Ok (VStr "result"), [EvToolNew GroundingSAM; EvToolCall GroundingSAM kw]).
Proof.
  intros W kw.
  destruct (selector_closure_call W GroundingSAM (generate_segmentor W) Demo.client
              "where is the cat?" []
              {| choices := [ {| message_content := Some Demo.cat_text |} ] |}
              Demo.cat_text
              {[ "Parameters" := VDict {[ "prompt" := VStr "cat" ]} ]}
              {[ "prompt" := VStr "cat" ]} (VStr "cat")
              (segmentor_in_factories W) eq_refl eq_refl eq_refl eq_refl eq_refl)
    as (f & Hf & Hcall).
  exists f. split; [exact Hf |].
  exact (proj1 (Hcall (VStr "img.png") [] eq_refl)).
Defined.

(** ** The third-party client: [chat] and [generate] *)

Lemma encode_image_ok (W : World) (p bytes : string) (tr : trace) :
  open_read W tr p = Ok bytes →
  encode_image W p tr = (Ok (b64encode W bytes), tr ++ [EvOpen p]).
Proof. intros H. unfold encode_image, call_out, mbind, M_bind. by rewrite H. Qed.

Lemma encode_image_raise (W : World) (p : string) (e : exn) (tr : trace) :
  open_read W tr p = Raise e →
  encode_image W p tr = (Raise e, tr ++ [EvOpen p]).
Proof. intros H. unfold encode_image, call_out, mbind, M_bind. by rewrite H. Qed.

Lemma create_kw_clean (W : World) (self : OpenAILMM) (fixed : list FixedMessage) (tr : trace) :
  kwargs_clean self →
  create_kw W (model_name self) (wire <$> fixed) (max_tokens self) (kwargs self) tr
  = (completions_create W tr (chat_request self fixed), tr ++ [EvCreate (chat_request self fixed)]).
Proof.
  intros (Hm & Hs & Ht). unfold create_kw. rewrite Hm, Hs, Ht.
  rewrite !bool_decide_false by (intros [? ?]; discriminate).
  reflexivity.
Qed.

Lemma create_kw_clash (W : World) (self : OpenAILMM) (fixed : list FixedMessage) (tr : trace) :
  ¬ kwargs_clean self →
  create_kw W (model_name self) (wire <$> fixed) (max_tokens self) (kwargs self) tr
  = (Raise TypeError, tr).
Proof.
  intros Hclash. unfold create_kw.
  destruct (kwargs self !! "model") as [?|] eqn:Hm;
    [by rewrite bool_decide_true by eauto |].
  destruct (kwargs self !! "messages") as [?|] eqn:Hs;
    [by rewrite (bool_decide_true (is_Some (Some _))), orb_true_r by eauto |].
  destruct (kwargs self !! "max_tokens") as [?|] eqn:Ht;
    [by rewrite (bool_decide_true (is_Some (Some _))), orb_true_r by eauto |].
  exfalso. apply Hclash. by repeat split.
Qed.

Lemma send_clean (W : World) (self : OpenAILMM) (fixed : list FixedMessage)
    (tr : trace) :
  kwargs_clean self →
  send W self fixed tr
  = (first_text (completions_create W tr (chat_request self fixed)),
     tr ++ [EvCreate (chat_request self fixed)]).
Proof.
  intros Hclean. unfold send, mbind at 1, M_bind at 1. rewrite create_kw_clean by done.
  unfold first_text. destruct (completions_create W tr _) as [response | e]; simpl; [| done].
  unfold mbind, M_bind, lift. destruct (first_content response); reflexivity.
Qed.

Lemma send_clash (W : World) (self : OpenAILMM) (fixed : list FixedMessage) (tr : trace) :
  ¬ kwargs_clean self →
  send W self fixed tr
  = (Raise TypeError, tr).
Proof.
  intros Hclash. unfold send, mbind at 1, M_bind at 1. by rewrite create_kw_clash.
Qed.

Lemma fix_chat_well_formed (chat : list (gmap string string)) :
  Forall well_formed chat →
  ∃ fixed, fix_chat chat = Ok fixed ∧ Forall2 text_only chat fixed.
Proof.
  induction 1 as [| c rest [[r Hr] [t Ht]] _ (fixed & Hfix & Hall)].
  - exists []. split; [reflexivity | constructor].
  - exists ({| fixed_role := r; fixed_content := [TextBlock t] |} :: fixed). split.
    + simpl. unfold dict_getitem. rewrite Hr, Ht. simpl. rewrite Hfix. reflexivity.
    + constructor; [| done]. by exists r, t.
Qed.

(** The extension test: the three accepted suffixes, whatever their case,
    and the refusal of every other. *)
Lemma chat_extension_jpg (extension : string) :
  lower extension = ".jpg" ∨ lower extension = ".jpeg" → chat_extension extension = Ok "jpg".
Proof. unfold chat_extension. intros [-> | ->]; reflexivity. Qed.

Lemma chat_extension_png (extension : string) :
  lower extension = ".png" → chat_extension extension = Ok "png".
Proof. unfold chat_extension. intros ->. reflexivity. Qed.

Lemma chat_extension_other (extension : string) :
  lower extension ≠ ".jpg" → lower extension ≠ ".jpeg" → lower extension ≠ ".png" →
  chat_extension extension = Raise (UnsupportedImageFormat extension).
Proof.
  intros Hj He Hp. unfold chat_extension.
  destruct (String.eqb_spec (lower extension) ".jpeg"); [done |].
  destruct (String.eqb_spec (lower extension) ".jpg"); [done |].
  destruct (String.eqb_spec (lower extension) ".png"); [done |].
  reflexivity.
Qed.

Lemma chat_extension_tag (extension tag : string) :
  chat_extension extension = Ok tag → tag = "jpg" ∨ tag = "png".
Proof.
  unfold chat_extension.
  destruct (_ || _); [intros [= <-]; by left |].
  destruct (String.eqb _ _); [intros [= <-]; by right | discriminate].
Qed.

Section ChatRuns.

Variables (W : World) (self : OpenAILMM).

Lemma chat_malformed (chat : list (gmap string string)) (image : option string)
    (e : exn) (tr : trace) :
  fix_chat chat = Raise e → OpenAILMM_chat W self chat image tr = (Raise e, tr).
Proof. intros Hfix. unfold OpenAILMM_chat, lift, mbind at 1, M_bind at 1. by rewrite Hfix. Qed.

Lemma chat_no_image (chat : list (gmap string string)) (fixed : list FixedMessage)
    (image : option string) (tr : trace) :
  fix_chat chat = Ok fixed → truthy image = None →
  OpenAILMM_chat W self chat image tr = send W self fixed tr.
Proof.
  intros Hfix Himg. unfold OpenAILMM_chat, lift, mbind at 1, M_bind at 1.
  rewrite Hfix, Himg. reflexivity.
Qed.

Lemma chat_refused (chat : list (gmap string string)) (fixed : list FixedMessage)
    (image : option string) (p : string) (e : exn) (tr : trace) :
  fix_chat chat = Ok fixed → truthy image = Some p →
  chat_extension (suffix p) = Raise e →
  OpenAILMM_chat W self chat image tr = (Raise e, tr).
Proof.
  intros Hfix Himg Hext. unfold OpenAILMM_chat, lift, mbind, M_bind.
  by rewrite Hfix, Himg, Hext.
Qed.

Lemma chat_unreadable (chat : list (gmap string string)) (fixed : list FixedMessage)
    (image : option string) (p tag : string) (e : exn) (tr : trace) :
  fix_chat chat = Ok fixed → truthy image = Some p →
  chat_extension (suffix p) = Ok tag → open_read W tr p = Raise e →
  OpenAILMM_chat W self chat image tr = (Raise e, tr ++ [EvOpen p]).
Proof.
  intros Hfix Himg Hext Hread. unfold OpenAILMM_chat, lift, mbind, M_bind.
  rewrite Hfix, Himg, Hext. by rewrite (encode_image_raise W p e tr Hread).
Qed.

Lemma chat_attach (chat : list (gmap string string)) (fixed : list FixedMessage)
    (image : option string) (p tag bytes : string) (tr : trace) :
  fix_chat chat = Ok fixed → truthy image = Some p →
  chat_extension (suffix p) = Ok tag → open_read W tr p = Ok bytes →
  OpenAILMM_chat W self chat image tr
  = match append_first fixed (image_url_block tag (b64encode W bytes)) with
    | Ok fixed' => send W self fixed' (tr ++ [EvOpen p])
    | Raise e => (Raise e, tr ++ [EvOpen p])
    end.
Proof.
  intros Hfix Himg Hext Hread. unfold OpenAILMM_chat, lift, mbind, M_bind.
  rewrite Hfix, Himg, Hext. rewrite (encode_image_ok W p bytes tr Hread).
  destruct (append_first fixed _); reflexivity.
Qed.

Lemma generate_no_image (prompt : string) (image : option string) (tr : trace) :
  truthy image = None →
  OpenAILMM_generate W self prompt image tr
  = send W self [ {| fixed_role := "user"; fixed_content := [TextBlock prompt] |} ] tr.
Proof. intros Himg. unfold OpenAILMM_generate. rewrite Himg. reflexivity. Qed.

Lemma generate_unreadable (prompt : string) (image : option string) (p : string)
    (e : exn) (tr : trace) :
  truthy image = Some p → open_read W tr p = Raise e →
  OpenAILMM_generate W self prompt image tr = (Raise e, tr ++ [EvOpen p]).
Proof.
  intros Himg Hread. unfold OpenAILMM_generate, lift, mbind, M_bind.
  rewrite Himg. by rewrite (encode_image_raise W p e tr Hread).
Qed.

Lemma generate_attach (prompt : string) (image : option string) (p bytes : string)
    (tr : trace) :
  truthy image = Some p → open_read W tr p = Ok bytes →
  OpenAILMM_generate W self prompt image tr
  = send W self
      [ {| fixed_role := "user";
              fixed_content := [TextBlock prompt;
                                image_url_block (suffix p) (b64encode W bytes)] |} ]
      (tr ++ [EvOpen p]).
Proof.
  intros Himg Hread. unfold OpenAILMM_generate, lift, mbind, M_bind.
  rewrite Himg. rewrite (encode_image_ok W p bytes tr Hread). reflexivity.
Qed.

End ChatRuns.

Lemma user_message_well_formed (text : string) : well_formed (Demo.user_message text).
Proof. split; eexists; reflexivity. Qed.

Lemma client_clean : kwargs_clean Demo.client.
Proof. repeat split. Qed.

(** A non-empty list of well-formed messages with a readable image of an
    accepted extension: the request that is sent. *)
Lemma chat_image_sent (W : World) (self : OpenAILMM) (c0 : gmap string string)
    (rest : list (gmap string string)) (image : option string) (p tag bytes : string)
    (tr : trace) :
  Forall well_formed (c0 :: rest) → kwargs_clean self →
  truthy image = Some p → chat_extension (suffix p) = Ok tag →
  open_read W tr p = Ok bytes →
  ∃ (m0 : FixedMessage) (ms : list FixedMessage),
    OpenAILMM_chat W self (c0 :: rest) image tr
    = (first_text (completions_create W (tr ++ [EvOpen p]) (chat_request self (m0 :: ms))),
       tr ++ [EvOpen p; EvCreate (chat_request self (m0 :: ms))])
    ∧ text_and_image (image_url_block tag (b64encode W bytes)) c0 m0
    ∧ Forall2 text_only rest ms.
Proof.
  intros Hwf Hclean Himg Hext Hread.
  destruct (fix_chat_well_formed _ Hwf) as (fixed & Hfix & Hall).
  inversion Hall as [| c m cs ms (r & t & Hr & Ht & ->) Hrest]; subst.
  eexists _, ms. split; [| split; [| exact Hrest]].
  - rewrite (chat_attach W self _ _ image p tag bytes tr Hfix Himg Hext Hread).
    cbn [append_first fixed_role fixed_content app].
    rewrite send_clean by done. by rewrite <- app_assoc.
  - by exists r, t.
Qed.

(** C3: for an image that is given, with well-formed messages: when its
    suffix in lower case is ".jpg" or ".jpeg" the media tag of the data
    URI appended to the first message is "jpg", when it is ".png" the tag
    is "png"; for every other suffix [chat] raises the [ValueError]
    "Unsupported image extension" and adds no event at all, so no network
    call. *)
Theorem chat_image_extension (W : World) (self : OpenAILMM)
    (chat : list (gmap string string)) (image : option string) (p : string) (tr : trace) :
  truthy image = Some p → Forall well_formed chat →
  (∀ tag : string,
     ((lower (suffix p) = ".jpg" ∨ lower (suffix p) = ".jpeg") ∧ tag = "jpg")
     ∨ (lower (suffix p) = ".png" ∧ tag = "png") →
     ∀ bytes : string, open_read W tr p = Ok bytes → chat ≠ [] → kwargs_clean self →
       ∃ (m0 : FixedMessage) (ms : list FixedMessage) (r t : string),
         OpenAILMM_chat W self chat image tr
         = (first_text (completions_create W (tr ++ [EvOpen p]) (chat_request self (m0 :: ms))),
            tr ++ [EvOpen p; EvCreate (chat_request self (m0 :: ms))])
         ∧ m0 = {| fixed_role := r;
                   fixed_content :=
                     [TextBlock t;
                      ImageUrlBlock ("data:image/" +:+ tag +:+ ";base64," +:+ b64encode W bytes)
                        "low"] |})
  ∧ (lower (suffix p) ≠ ".jpg" → lower (suffix p) ≠ ".jpeg" → lower (suffix p) ≠ ".png" →
       OpenAILMM_chat W self chat image tr
       = (Raise (ValueError ("Unsupported image extension: " +:+ suffix p)), tr)).
Proof.
  intros Himg Hwf. split.
  - intros tag Htag bytes Hread Hne Hclean.
    assert (chat_extension (suffix p) = Ok tag) as Hext.
    { destruct Htag as [[H ->] | [H ->]];
        [by apply chat_extension_jpg | by apply chat_extension_png]. }
    destruct chat as [| c0 rest]; [done |].
    destruct (chat_image_sent W self c0 rest image p tag bytes tr Hwf Hclean Himg Hext Hread)
      as (m0 & ms & Hrun & (r & t & _ & _ & Hm0) & _).
    by exists m0, ms, r, t.
  - intros Hj He Hp.
    destruct (fix_chat_well_formed _ Hwf) as (fixed & Hfix & _).
    apply (chat_refused W self chat fixed image p _ tr Hfix Himg).
    by apply chat_extension_other.
Qed.

Lemma chat_image_extension_witness :
  let W := Demo.world VNone "a cat" in
  (∃ (m0 : FixedMessage) (ms : list FixedMessage) (r t : string),
     OpenAILMM_chat W Demo.client [Demo.user_message "what is this?"] (Some "shots/Cat.JPEG") []
     = (first_text (completions_create W [EvOpen "shots/Cat.JPEG"]
                      (chat_request Demo.client (m0 :: ms))),
        [EvOpen "shots/Cat.JPEG"; EvCreate (chat_request Demo.client (m0 :: ms))])
     ∧ m0 = {| fixed_role := r;
               fixed_content :=
                 [TextBlock t;
                  ImageUrlBlock "data:image/jpg;base64,b64<shots/Cat.JPEG>" "low"] |})
  ∧ OpenAILMM_chat W Demo.client [Demo.user_message "what is this?"] (Some "anim.gif") []
    = (Raise (ValueError "Unsupported image extension: .gif"), []).
Proof.
  intros W. split.
  - apply (proj1 (chat_image_extension W Demo.client [Demo.user_message "what is this?"]
                    (Some "shots/Cat.JPEG") "shots/Cat.JPEG" [] eq_refl
                    (Forall_cons_2 _ _ _ (user_message_well_formed _) (Forall_nil_2 _)))
             "jpg" (or_introl (conj (or_intror eq_refl) eq_refl))
             "<shots/Cat.JPEG>" eq_refl).
    + discriminate.
    + exact client_clean.
  - apply (proj2 (chat_image_extension W Demo.client [Demo.user_message "what is this?"]
                    (Some "anim.gif") "anim.gif" [] eq_refl
                    (Forall_cons_2 _ _ _ (user_message_well_formed _) (Forall_nil_2 _)))).
    + discriminate.
    + discriminate.
    + discriminate.
Defined.

Example chat_png_run :
  OpenAILMM_chat (Demo.world VNone "a cat") Demo.client
    [Demo.user_message "what is this?"; Demo.user_message "and where?"] (Some "img.PNG") []
  = (Ok (VStr "a cat"),
     [EvOpen "img.PNG";
      EvCreate {| model := "gpt-4-vision-preview";
                  messages :=
                    [ {| role := "user";
                         content := BlockContent
                                      [TextBlock "what is this?";
                                       ImageUrlBlock "data:image/png;base64,b64<img.PNG>" "low"] |};
                      {| role := "user";
                         content := BlockContent [TextBlock "and where?"] |} ];
                  max_tokens_arg := Some 1024;
                  extra := ∅ |}]).
Proof. reflexivity. Qed.

(** C8: for a non-empty list of well-formed messages, [chat] with an image
    (readable, of an accepted extension) sends the first message with its
    text block followed by the image block, and every other message with
    its single text block; without an image every message, the first
    included, is sent with its single text block. *)
Theorem chat_image_first_only (W : World) (self : OpenAILMM) (c0 : gmap string string)
    (rest : list (gmap string string)) (image : option string) (tr : trace) :
  Forall well_formed (c0 :: rest) → kwargs_clean self →
  (∀ p tag bytes : string,
     truthy image = Some p → chat_extension (suffix p) = Ok tag →
     open_read W tr p = Ok bytes →
     ∃ (m0 : FixedMessage) (ms : list FixedMessage),
       OpenAILMM_chat W self (c0 :: rest) image tr
       = (first_text (completions_create W (tr ++ [EvOpen p]) (chat_request self (m0 :: ms))),
          tr ++ [EvOpen p; EvCreate (chat_request self (m0 :: ms))])
       ∧ messages (chat_request self (m0 :: ms)) = wire m0 :: (wire <$> ms)
       ∧ text_and_image
           (ImageUrlBlock ("data:image/" +:+ tag +:+ ";base64," +:+ b64encode W bytes) "low")
           c0 m0
       ∧ Forall2 text_only rest ms)
  ∧ (truthy image = None →
     ∃ ms : list FixedMessage,
       OpenAILMM_chat W self (c0 :: rest) image tr
       = (first_text (completions_create W tr (chat_request self ms)),
          tr ++ [EvCreate (chat_request self ms)])
       ∧ messages (chat_request self ms) = wire <$> ms
       ∧ Forall2 text_only (c0 :: rest) ms).
Proof.
  intros Hwf Hclean. split.
  - intros p tag bytes Himg Hext Hread.
    destruct (chat_image_sent W self c0 rest image p tag bytes tr Hwf Hclean Himg Hext Hread)
      as (m0 & ms & Hrun & Hfirst & Hrest).
    by exists m0, ms.
  - intros Himg.
    destruct (fix_chat_well_formed _ Hwf) as (fixed & Hfix & Hall).
    exists fixed. split; [| done].
    rewrite (chat_no_image W self _ fixed image tr Hfix Himg).
    by apply send_clean.
Qed.

Lemma chat_image_first_only_witness :
  let W := Demo.world VNone "a cat" in
  let chat := [Demo.user_message "what is this?"; Demo.user_message "and where?"] in
  (∃ (m0 : FixedMessage) (ms : list FixedMessage),
     OpenAILMM_chat W Demo.client chat (Some "img.png") []
     = (first_text (completions_create W [EvOpen "img.png"]
                      (chat_request Demo.client (m0 :: ms))),
        [EvOpen "img.png"; EvCreate (chat_request Demo.client (m0 :: ms))])
     ∧ text_and_image (ImageUrlBlock "data:image/png;base64,b64<img.png>" "low")
         (Demo.user_message "what is this?") m0
     ∧ Forall2 text_only [Demo.user_message "and where?"] ms)
  ∧ (∃ ms : list FixedMessage,
       OpenAILMM_chat W Demo.client chat None []
       = (first_text (completions_create W [] (chat_request Demo.client ms)),
          [EvCreate (chat_request Demo.client ms)])
       ∧ Forall2 text_only chat ms).
Proof.
  intros W chat.
  pose proof (chat_image_first_only W Demo.client (Demo.user_message "what is this?")
                [Demo.user_message "and where?"]) as Hthm.
  assert (Forall well_formed chat) as Hwf.
  { repeat apply Forall_cons_2; [apply user_message_well_formed .. | apply Forall_nil_2]. }
  split.
  - destruct (proj1 (Hthm (Some "img.png") [] Hwf client_clean)
                "img.png" "png" "<img.png>" eq_refl eq_refl eq_refl)
      as (m0 & ms & Hrun & _ & Hfirst & Hrest).
    by exists m0, ms.
  - destruct (proj2 (Hthm None [] Hwf client_clean) eq_refl) as (ms & Hrun & _ & Hall).
    by exists ms.
Defined.

(** C10: with a readable image of an accepted extension, [chat] on the
    empty list raises [IndexError] at [fixed_chat[0]], after the file has
    been read and before any network call; for well-formed messages that
    outcome occurs exactly when the list is empty, and on a non-empty list
    the request is sent. *)
Theorem chat_empty_with_image (W : World) (self : OpenAILMM) (image : option string)
    (p tag bytes : string) (tr : trace) :
  truthy image = Some p → chat_extension (suffix p) = Ok tag →
  open_read W tr p = Ok bytes →
  OpenAILMM_chat W self [] image tr
  = (Raise (IndexError "list index out of range"), tr ++ [EvOpen p])
  ∧ no_network [EvOpen p]
  ∧ (∀ chat : list (gmap string string), Forall well_formed chat →
       (OpenAILMM_chat W self chat image tr
        = (Raise (IndexError "list index out of range"), tr ++ [EvOpen p])
        ↔ chat = [])
       ∧ (chat ≠ [] → kwargs_clean self →
          ∃ args : CreateArgs,
            OpenAILMM_chat W self chat image tr
            = (first_text (completions_create W (tr ++ [EvOpen p]) args),
               tr ++ [EvOpen p; EvCreate args]))).
Proof.
  intros Himg Hext Hread.
  assert (OpenAILMM_chat W self [] image tr
          = (Raise (IndexError "list index out of range"), tr ++ [EvOpen p])) as Hempty.
  { by rewrite (chat_attach W self [] [] image p tag bytes tr eq_refl Himg Hext Hread). }
  split; [exact Hempty |]. split; [by repeat constructor |].
  intros chat Hwf. split; [split |].
  - destruct chat as [| c0 rest]; [done |]. intros Hrun. exfalso.
    destruct (fix_chat_well_formed _ Hwf) as (fixed & Hfix & Hall).
    inversion Hall as [| c m cs ms _ _]; subst.
    rewrite (chat_attach W self _ _ image p tag bytes tr Hfix Himg Hext Hread) in Hrun.
    cbn [append_first] in Hrun.
    destruct (decide (kwargs_clean self)) as [Hclean | Hclash].
    + rewrite send_clean in Hrun by done.
      injection Hrun as _ Htr. rewrite <- app_assoc in Htr.
      apply app_inv_head in Htr. discriminate.
    + rewrite send_clash in Hrun by done. discriminate.
  - by intros ->.
  - intros Hne Hclean. destruct chat as [| c0 rest]; [done |].
    destruct (chat_image_sent W self c0 rest image p tag bytes tr Hwf Hclean Himg Hext Hread)
      as (m0 & ms & Hrun & _).
    by eexists.
Qed.

Lemma chat_empty_with_image_witness :
  let W := Demo.world VNone "a cat" in
  OpenAILMM_chat W Demo.client [] (Some "img.png") []
  = (Raise (IndexError "list index out of range"), [EvOpen "img.png"])
  ∧ ∃ args : CreateArgs,
      OpenAILMM_chat W Demo.client [Demo.user_message "what is this?"] (Some "img.png") []
      = (first_text (completions_create W [EvOpen "img.png"] args),
         [EvOpen "img.png"; EvCreate args]).
Proof.
  intros W.
  pose proof (chat_empty_with_image W Demo.client (Some "img.png") "img.png" "png"
                "<img.png>" [] eq_refl eq_refl eq_refl) as (Hempty & _ & Hall).
  split; [exact Hempty |].
  apply (proj2 (Hall [Demo.user_message "what is this?"]
                  (Forall_cons_2 _ _ _ (user_message_well_formed _) (Forall_nil_2 _)))).
  - discriminate.
  - exact client_clean.
Defined.

(** A suffix is empty or begins with the dot. *)
Lemma from_last_dot_dot (s t : string) :
  from_last_dot s = Some t → ∃ u, t = String "." u.
Proof.
  revert t. induction s as [| c s IH]; intros t; simpl; [discriminate |].
  destruct (from_last_dot s) as [t' |].
  - intros [= <-]. by apply IH.
  - destruct (Ascii.eqb_spec c ".") as [-> |]; [| discriminate].
    intros [= <-]. by eexists.
Qed.

Lemma suffix_leading_dot (p : string) :
  suffix p = "" ∨ ∃ u, suffix p = String "." u.
Proof.
  unfold suffix, name_suffix. destruct (path_name p) as [| c rest]; [by left |].
  destruct (from_last_dot rest) as [t |] eqn:Hdot; [| by left].
  destruct (from_last_dot_dot _ _ Hdot) as (u & ->).
  destruct u; [by left | right; by eexists].
Qed.

(** C4: [generate] puts the suffix of the image path, as [pathlib] gives
    it (leading dot included) and with no test or change of case, into the
    data URI [data:image/{suffix};base64,{encoded}]; and every exception
    that leaves [generate] is the file's, the keyword clash's, the
    completion API's or the [IndexError] of an empty [choices]: none is
    raised for the suffix. *)
Theorem generate_raw_suffix (W : World) (self : OpenAILMM) (prompt : string)
    (image : option string) (p : string) (tr : trace) :
  truthy image = Some p →
  (∀ bytes : string, open_read W tr p = Ok bytes → kwargs_clean self →
     let user :=
       {| fixed_role := "user";
          fixed_content :=
            [TextBlock prompt;
             ImageUrlBlock ("data:image/" +:+ suffix p +:+ ";base64," +:+ b64encode W bytes)
               "low"] |} in
     OpenAILMM_generate W self prompt image tr
     = (first_text (completions_create W (tr ++ [EvOpen p]) (chat_request self [user])),
        tr ++ [EvOpen p; EvCreate (chat_request self [user])]))
  ∧ (suffix p = "" ∨ ∃ u, suffix p = String "." u)
  ∧ (∀ (e : exn) (tr' : trace),
       OpenAILMM_generate W self prompt image tr = (Raise e, tr') →
       open_read W tr p = Raise e
       ∨ e = TypeError
       ∨ (∃ args, completions_create W (tr ++ [EvOpen p]) args = Raise e)
       ∨ e = IndexError "list index out of range").
Proof.
  intros Himg. split; [| split].
  - intros bytes Hread Hclean user.
    rewrite (generate_attach W self prompt image p bytes tr Himg Hread).
    rewrite send_clean by done. by rewrite <- app_assoc.
  - apply suffix_leading_dot.
  - intros e tr' Hrun.
    destruct (open_read W tr p) as [bytes | e0] eqn:Hread.
    + rewrite (generate_attach W self prompt image p bytes tr Himg Hread) in Hrun.
      destruct (decide (kwargs_clean self)) as [Hclean | Hclash].
      * rewrite send_clean in Hrun by done. injection Hrun as Hres _.
        right; right. unfold first_text in Hres.
        destruct (completions_create W _ _) as [response | e1] eqn:Hcreate; simpl in Hres.
        -- right. unfold first_content in Hres.
           destruct (choices response); simpl in Hres; [by injection Hres as <- | done].
        -- left. injection Hres as <-. by eexists.
      * rewrite send_clash in Hrun by done. injection Hrun as <- _. by right; left.
    + rewrite (generate_unreadable W self prompt image p e0 tr Himg Hread) in Hrun.
      injection Hrun as <- _. by left.
Qed.

Lemma generate_raw_suffix_witness :
  let W := Demo.world VNone "a cat" in
  OpenAILMM_generate W Demo.client "what is this?" (Some "shots/Cat.JPEG") []
  = (Ok (VStr "a cat"),
     [EvOpen "shots/Cat.JPEG";
      EvCreate (chat_request Demo.client
                  [ {| fixed_role := "user";
                       fixed_content :=
                         [TextBlock "what is this?";
                          ImageUrlBlock "data:image/.JPEG;base64,b64<shots/Cat.JPEG>" "low"] |} ])]).
Proof.
  intros W.
  exact (proj1 (generate_raw_suffix W Demo.client "what is this?" (Some "shots/Cat.JPEG")
                  "shots/Cat.JPEG" [] eq_refl)
           "<shots/Cat.JPEG>" eq_refl client_clean).
Defined.

(** [generate] sends what [chat] refuses. *)
Example generate_gif_run :
  OpenAILMM_generate (Demo.world VNone "a cat") Demo.client "what is this?" (Some "anim.gif") []
  = (Ok (VStr "a cat"),
     [EvOpen "anim.gif";
      EvCreate {| model := "gpt-4-vision-preview";
                  messages :=
                    [ {| role := "user";
                         content := BlockContent
                                      [TextBlock "what is this?";
                                       ImageUrlBlock "data:image/.gif;base64,b64<anim.gif>" "low"] |} ];
                  max_tokens_arg := Some 1024;
                  extra := ∅ |}]).
Proof. reflexivity. Qed.

Example chat_gif_run :
  OpenAILMM_chat (Demo.world VNone "a cat") Demo.client [Demo.user_message "what is this?"]
    (Some "anim.gif") []
  = (Raise (ValueError "Unsupported image extension: .gif"), []).
Proof. reflexivity. Qed.

(** The empty string is no image: [chat] sends the text alone. *)
Example chat_empty_path_run :
  OpenAILMM_chat (Demo.world VNone "hello") Demo.client [Demo.user_message "hi"] (Some "") []
  = (Ok (VStr "hello"),
     [EvCreate (chat_request Demo.client
                  [ {| fixed_role := "user"; fixed_content := [TextBlock "hi"] |} ])]).
Proof. reflexivity. Qed.

(** A message without "role" stops [chat] in its loop. *)
Example chat_malformed_run :
  OpenAILMM_chat (Demo.world VNone "hello") Demo.client [ {[ "content" := "hi" ]} ]
    (Some "anim.gif") []
  = (Raise (KeyError "role"), []).
Proof. reflexivity. Qed.

(** A closure whose parameters have no "prompt" fails when it is called,
    after the tool has been constructed. *)
Example closure_without_prompt :
  tool_closure (Demo.world VNone "") CLIP (VDict ∅) (VStr "img.png") []
  = (Raise (KeyError "prompt"), [EvToolNew CLIP]).
Proof. reflexivity. Qed.

(** ** More on the hosted-endpoint client *)

(** X1: What [generate] posts: the payload holds "prompt", "temperature" and
    "max_new_tokens", and "image" exactly when an image is given; it goes
    to the fixed endpoint with the JSON content type.  An image that
    cannot be read stops [generate] before anything is posted. *)
Theorem llava_post_request (W : World) (self : LLaVALMM) (prompt : string)
    (image : option string) (temperature : float) (max_new_tokens : Z) (tr : trace) :
  let finish (data : gmap string value) : gmap string value :=
    <[ "max_new_tokens" := VInt max_new_tokens ]> (<[ "temperature" := VFloat temperature ]> data) in
  let post (data : gmap string value) : PostArgs :=
    {| url := _LLAVA_ENDPOINT;
       headers := {[ "Content-Type" := "application/json" ]};
       json := finish data |} in
  (truthy image = None →
     LLaVALMM_post W prompt image temperature max_new_tokens tr
     = (requests_post W tr (post {[ "prompt" := VStr prompt ]}) ≫= response_json,
        tr ++ [EvPost (post {[ "prompt" := VStr prompt ]})])
     ∧ dom (finish {[ "prompt" := VStr prompt ]})
       = ({[ "prompt"; "temperature"; "max_new_tokens" ]} : gset string))
  ∧ (∀ p bytes : string, truthy image = Some p → open_read W tr p = Ok bytes →
       let data : gmap string value :=
         <[ "image" := VStr (b64encode W bytes) ]> {[ "prompt" := VStr prompt ]} in
       LLaVALMM_post W prompt image temperature max_new_tokens tr
       = (requests_post W (tr ++ [EvOpen p]) (post data) ≫= response_json,
          tr ++ [EvOpen p; EvPost (post data)])
       ∧ dom (finish data)
         = ({[ "prompt"; "image"; "temperature"; "max_new_tokens" ]} : gset string))
  ∧ (∀ (p : string) (e : exn), truthy image = Some p → open_read W tr p = Raise e →
       LLaVALMM_generate_with W self prompt image temperature max_new_tokens tr
       = (Raise e, tr ++ [EvOpen p])
       ∧ no_network [EvOpen p]).
Proof.
  intros finish post. split; [| split].
  - intros Himg. split.
    + unfold LLaVALMM_post. rewrite Himg.
      unfold call_out, lift, mbind at 1 2, M_bind, mret, M_ret.
      fold (finish {[ "prompt" := VStr prompt ]}). fold (post {[ "prompt" := VStr prompt ]}).
      destruct (requests_post W tr _); reflexivity.
    + unfold finish. rewrite !dom_insert_L, dom_singleton_L. set_solver.
  - intros p bytes Himg Hread data. split.
    + unfold LLaVALMM_post. rewrite Himg.
      unfold call_out, lift, mbind at 1 2 3, M_bind, mret, M_ret.
      rewrite (encode_image_ok W p bytes tr Hread).
      fold data. fold (finish data). fold (post data).
      destruct (requests_post W (tr ++ [EvOpen p]) _); simpl; by rewrite <- app_assoc.
    + unfold finish, data. rewrite !dom_insert_L, dom_singleton_L. set_solver.
  - intros p e Himg Hread. split; [| by repeat constructor].
    unfold LLaVALMM_generate_with, LLaVALMM_post. rewrite Himg.
    unfold mbind, M_bind. by rewrite (encode_image_raise W p e tr Hread).
Qed.

Lemma llava_post_request_witness :
  let W := Demo.world (VDict {[ "statusCode" := VInt 200 ]}) "" in
  let l := {| llava_model_name := "llava" |} in
  let post (data : gmap string value) : PostArgs :=
    {| url := _LLAVA_ENDPOINT;
       headers := {[ "Content-Type" := "application/json" ]};
       json := <[ "max_new_tokens" := VInt 1500 ]> (<[ "temperature" := VFloat 0.1%float ]> data) |} in
  snd (LLaVALMM_post W "hi" None 0.1%float 1500 [])
  = [EvPost (post {[ "prompt" := VStr "hi" ]})]
  ∧ snd (LLaVALMM_post W "hi" (Some "img.png") 0.1%float 1500 [])
    = [EvOpen "img.png";
       EvPost (post (<[ "image" := VStr "b64<img.png>" ]> {[ "prompt" := VStr "hi" ]}))]
  ∧ LLaVALMM_generate W l "hi" (Some "missing.png") []
    = (Raise (OtherError "FileNotFoundError" "missing.png"), [EvOpen "missing.png"]).
Proof.
  intros W l post.
  pose proof (llava_post_request W l "hi" None 0.1%float 1500 []) as (Hnone & _ & _).
  pose proof (llava_post_request W l "hi" (Some "img.png") 0.1%float 1500 []) as (_ & Hsome & _).
  pose proof (llava_post_request W l "hi" (Some "missing.png") 0.1%float 1500 []) as (_ & _ & Hbad).
  split; [| split].
  - rewrite (proj1 (Hnone eq_refl)). reflexivity.
  - rewrite (proj1 (Hsome "img.png" "<img.png>" eq_refl eq_refl)). reflexivity.
  - exact (proj1 (Hbad "missing.png" _ eq_refl eq_refl)).
Defined.

Lemma py_ne_200_false (code : value) :
  py_ne_200 code = false →
  code = VInt 200 ∨ ∃ f : float, code = VFloat f ∧ PrimFloat.eqb f 200%float = true.
Proof.
  destruct code as [| b | z | f | | |]; simpl; try discriminate.
  - by destruct b.
  - intros Hz. left. apply negb_false_iff, Z.eqb_eq in Hz. by subst.
  - intros Hf. right. exists f. split; [done |]. by apply negb_false_iff.
Qed.

Lemma unwrap_ok (W : World) (resp_json x : value) (tr tr' : trace) :
  LLaVALMM_unwrap W resp_json tr = (Ok x, tr') →
  tr' = tr
  ∧ ∃ (d : gmap string value) (code : value),
      resp_json = VDict d ∧ d !! "statusCode" = Some code
      ∧ py_ne_200 code = false ∧ d !! "data" = Some x.
Proof.
  destruct resp_json as [| b | z | f | s | l | d];
    try (unfold LLaVALMM_unwrap, lift, mbind, M_bind; simpl; discriminate).
  - unfold LLaVALMM_unwrap, lift, mbind, M_bind; simpl.
    destruct (substr_in "statusCode" s); simpl; discriminate.
  - unfold LLaVALMM_unwrap, lift, mbind, M_bind; simpl.
    destruct (existsb _ l); simpl; discriminate.
  - destruct (d !! "statusCode") as [code |] eqn:Hcode.
    + rewrite (unwrap_status W d code tr Hcode).
      destruct (py_ne_200 code) eqn:Hne; [discriminate |].
      simpl. destruct (d !! "data") as [y |] eqn:Hdata; [| discriminate].
      intros [= -> ->]. split; [done |]. by exists d, code.
    + rewrite (unwrap_no_status W d tr Hcode). discriminate.
Qed.

(** X2: [generate] returns a value only from a JSON object whose "statusCode"
    is the integer 200 (or a float equal to it) and which has "data": the
    value returned is that "data", and nothing was logged. *)
Theorem llava_generate_success_sound (W : World) (self : LLaVALMM) (prompt : string)
    (image : option string) (temperature : float) (max_new_tokens : Z)
    (tr tr' : trace) (x : value) :
  LLaVALMM_generate_with W self prompt image temperature max_new_tokens tr = (Ok x, tr') →
  ∃ (d : gmap string value) (code : value),
    LLaVALMM_post W prompt image temperature max_new_tokens tr = (Ok (VDict d), tr')
    ∧ d !! "statusCode" = Some code
    ∧ (code = VInt 200 ∨ ∃ f : float, code = VFloat f ∧ PrimFloat.eqb f 200%float = true)
    ∧ d !! "data" = Some x.
Proof.
  unfold LLaVALMM_generate_with, mbind, M_bind.
  destruct (LLaVALMM_post W prompt image temperature max_new_tokens tr)
    as [[resp_json | e] tr1]; [| discriminate].
  intros Hunwrap. apply unwrap_ok in Hunwrap as (-> & d & code & -> & Hcode & Hne & Hdata).
  exists d, code. repeat split; [done | by apply py_ne_200_false | done].
Qed.

Lemma llava_generate_success_sound_witness :
  let body : gmap string value := <[ "data" := VStr "X" ]> {[ "statusCode" := VInt 200 ]} in
  ∃ (d : gmap string value) (code : value),
    d !! "statusCode" = Some code
    ∧ (code = VInt 200 ∨ ∃ f : float, code = VFloat f ∧ PrimFloat.eqb f 200%float = true)
    ∧ d !! "data" = Some (VStr "X").
Proof.
  intros body.
  destruct (llava_generate_success_sound (Demo.world (VDict body) "")
              {| llava_model_name := "llava" |} "hi" None 0.1%float 1500 []
              [EvPost {| url := _LLAVA_ENDPOINT;
                         headers := {[ "Content-Type" := "application/json" ]};
                         json := <[ "max_new_tokens" := VInt 1500 ]>
                                   (<[ "temperature" := VFloat 0.1%float ]>
                                      {[ "prompt" := VStr "hi" ]}) |}]
              (VStr "X") eq_refl)
    as (d & code & _ & Hcode & H200 & Hdata).
  by exists d, code.
Defined.

(** X3: A "statusCode" that is not a number — the string "200", a boolean,
    null, a list, an object — is a failed request, whatever "data" holds;
    so is every integer other than 200. *)
Theorem llava_status_not_200 (W : World) (self : LLaVALMM) (prompt : string)
    (image : option string) (temperature : float) (max_new_tokens : Z)
    (tr tr' : trace) (d : gmap string value) (code : value) :
  LLaVALMM_post W prompt image temperature max_new_tokens tr = (Ok (VDict d), tr') →
  d !! "statusCode" = Some code →
  code ≠ VInt 200 → (∀ f : float, code ≠ VFloat f) →
  LLaVALMM_generate_with W self prompt image temperature max_new_tokens tr
  = (Raise (RequestError (str_of W (VDict d))),
     tr' ++ [EvLogError ("Request failed: " +:+ str_of W (VDict d))]).
Proof.
  intros Hpost Hcode Hint Hfloat. unfold LLaVALMM_generate_with.
  rewrite (bind_ok _ _ _ _ _ Hpost), (unwrap_status W d code tr' Hcode).
  destruct (py_ne_200 code) eqn:Hne; [done |].
  destruct (py_ne_200_false code Hne) as [-> | (f & -> & _)]; [done |].
  by destruct (Hfloat f).
Qed.

Lemma llava_status_not_200_witness :
  let body : gmap string value := <[ "data" := VStr "X" ]> {[ "statusCode" := VStr "200" ]} in
  let posted :=
    [EvPost {| url := _LLAVA_ENDPOINT;
               headers := {[ "Content-Type" := "application/json" ]};
               json := <[ "max_new_tokens" := VInt 1500 ]>
                         (<[ "temperature" := VFloat 0.1%float ]> {[ "prompt" := VStr "hi" ]}) |}] in
  LLaVALMM_generate (Demo.world (VDict body) "") {| llava_model_name := "llava" |} "hi" None []
  = (Raise (RequestError "<dict>"), posted ++ [EvLogError "Request failed: <dict>"]).
Proof.
  intros body posted.
  apply (llava_status_not_200 (Demo.world (VDict body) "") {| llava_model_name := "llava" |}
           "hi" None 0.1%float 1500 [] posted body (VStr "200") eq_refl eq_refl).
  - discriminate.
  - discriminate.
Defined.

(** ** More on [chat] and [generate] of the third-party client *)

(** X4: An image that cannot be read: [generate], and [chat] once the
    extension is accepted, raise the error of the read after the attempt
    to open the file and before any request. *)
Theorem openai_unreadable_image (W : World) (self : OpenAILMM) (prompt : string)
    (chat : list (gmap string string)) (image : option string) (p : string) (e : exn)
    (tr : trace) :
  truthy image = Some p → open_read W tr p = Raise e →
  OpenAILMM_generate W self prompt image tr = (Raise e, tr ++ [EvOpen p])
  ∧ (∀ tag : string, Forall well_formed chat → chat_extension (suffix p) = Ok tag →
       OpenAILMM_chat W self chat image tr = (Raise e, tr ++ [EvOpen p]))
  ∧ no_network [EvOpen p].
Proof.
  intros Himg Hread. split; [| split].
  - by apply generate_unreadable.
  - intros tag Hwf Hext.
    destruct (fix_chat_well_formed _ Hwf) as (fixed & Hfix & _).
    by apply (chat_unreadable W self chat fixed image p tag).
  - by repeat constructor.
Qed.

Lemma openai_unreadable_image_witness :
  let W := Demo.world VNone "a cat" in
  let e := OtherError "FileNotFoundError" "missing.png" in
  OpenAILMM_generate W Demo.client "what is this?" (Some "missing.png") []
  = (Raise e, [EvOpen "missing.png"])
  ∧ OpenAILMM_chat W Demo.client [Demo.user_message "what is this?"] (Some "missing.png") []
    = (Raise e, [EvOpen "missing.png"]).
Proof.
  intros W e.
  pose proof (openai_unreadable_image W Demo.client "what is this?"
                [Demo.user_message "what is this?"] (Some "missing.png") "missing.png" e []
                eq_refl eq_refl) as (Hgen & Hchat & _).
  split; [exact Hgen |].
  exact (Hchat "png" (Forall_cons_2 _ _ _ (user_message_well_formed _) (Forall_nil_2 _)) eq_refl).
Defined.

Lemma fix_chat_missing (good rest : list (gmap string string)) (c : gmap string string)
    (k : string) :
  Forall well_formed good →
  (dict_getitem c "role" ≫= fun r => dict_getitem c "content" ≫= fun t => Ok (r, t))
  = Raise (KeyError k) →
  fix_chat (good ++ c :: rest) = Raise (KeyError k).
Proof.
  intros Hgood Hc. induction Hgood as [| g good [[r Hr] [t Ht]] _ IH]; simpl.
  - unfold mbind, result_bind in *.
    destruct (dict_getitem c "role") as [r | e]; [| by injection Hc as ->].
    destruct (dict_getitem c "content") as [t | e]; [done | by injection Hc as ->].
  - unfold dict_getitem at 1 2. rewrite Hr, Ht. simpl. by rewrite IH.
Qed.

(** X5: A message without "role" or without "content": [chat] raises the
    [KeyError] of the first such message ("role" is read first) and does
    nothing else, whatever the image: no file is opened, no request sent. *)
Theorem chat_missing_key (W : World) (self : OpenAILMM)
    (good rest : list (gmap string string)) (c : gmap string string)
    (image : option string) (tr : trace) :
  Forall well_formed good →
  (c !! "role" = None →
     OpenAILMM_chat W self (good ++ c :: rest) image tr = (Raise (KeyError "role"), tr))
  ∧ (is_Some (c !! "role") → c !! "content" = None →
       OpenAILMM_chat W self (good ++ c :: rest) image tr = (Raise (KeyError "content"), tr)).
Proof.
  intros Hgood. split.
  - intros Hrole. apply chat_malformed, fix_chat_missing; [done |].
    unfold dict_getitem. by rewrite Hrole.
  - intros [r Hrole] Hcontent. apply chat_malformed, fix_chat_missing; [done |].
    unfold dict_getitem. by rewrite Hrole, Hcontent.
Qed.

Lemma chat_missing_key_witness :
  let W := Demo.world VNone "a cat" in
  OpenAILMM_chat W Demo.client
    [Demo.user_message "hi"; {[ "content" := "no role" ]}; Demo.user_message "bye"]
    (Some "anim.gif") []
  = (Raise (KeyError "role"), [])
  ∧ OpenAILMM_chat W Demo.client [Demo.user_message "hi"; {[ "role" := "user" ]}]
      (Some "img.png") []
    = (Raise (KeyError "content"), []).
Proof.
  intros W. split.
  - apply (proj1 (chat_missing_key W Demo.client [Demo.user_message "hi"]
                    [Demo.user_message "bye"] {[ "content" := "no role" ]} (Some "anim.gif") []
                    (Forall_cons_2 _ _ _ (user_message_well_formed _) (Forall_nil_2 _)))).
    reflexivity.
  - apply (proj2 (chat_missing_key W Demo.client [Demo.user_message "hi"]
                    [] {[ "role" := "user" ]} (Some "img.png") []
                    (Forall_cons_2 _ _ _ (user_message_well_formed _) (Forall_nil_2 _)))).
    + by eexists.
    + reflexivity.
Defined.

Lemma fix_chat_same (chat chat' : list (gmap string string)) :
  Forall2 same_role_content chat chat' → fix_chat chat = fix_chat chat'.
Proof.
  induction 1 as [| c c' chat chat' [Hr Ht] _ IH]; [done |].
  simpl. unfold dict_getitem. by rewrite Hr, Ht, IH.
Qed.

(** X6: [chat] reads "role" and "content" of each message and nothing else:
    two lists whose messages agree on these two keys give the same run
    (the same request, result and events), whatever other keys they hold. *)
Theorem chat_reads_role_and_content (W : World) (self : OpenAILMM)
    (chat chat' : list (gmap string string)) (image : option string) :
  Forall2 same_role_content chat chat' →
  OpenAILMM_chat W self chat image = OpenAILMM_chat W self chat' image.
Proof.
  intros Hsame. unfold OpenAILMM_chat. by rewrite (fix_chat_same chat chat' Hsame).
Qed.

Lemma chat_reads_role_and_content_witness :
  OpenAILMM_chat (Demo.world VNone "a cat") Demo.client
    [ <[ "name" := "alice" ]> (Demo.user_message "hi") ] (Some "img.png")
  = OpenAILMM_chat (Demo.world VNone "a cat") Demo.client
      [ Demo.user_message "hi" ] (Some "img.png").
Proof.
  apply chat_reads_role_and_content.
  constructor; [| constructor].
  split; reflexivity.
Defined.

(** X7: The test [if image:] treats the empty string as no image: with the
    path "" the three methods that take an image behave as with [None],
    and these two are the only arguments treated so. *)
Theorem empty_path_is_no_image (W : World) (l : LLaVALMM) (o : OpenAILMM)
    (prompt : string) (chat : list (gmap string string)) (image : option string) :
  (truthy image = None ↔ image = None ∨ image = Some "")
  ∧ (truthy image = None →
       LLaVALMM_generate W l prompt image = LLaVALMM_generate W l prompt None
       ∧ OpenAILMM_generate W o prompt image = OpenAILMM_generate W o prompt None
       ∧ OpenAILMM_chat W o chat image = OpenAILMM_chat W o chat None).
Proof.
  split.
  - destruct image as [p |]; simpl.
    + destruct (String.eqb_spec p "") as [-> | Hne]; split; try done.
      * by right.
      * intros [? | [= ?]]; done.
    + split; [by left | done].
  - intros Himg.
    unfold LLaVALMM_generate, LLaVALMM_generate_with, LLaVALMM_post,
      OpenAILMM_generate, OpenAILMM_chat.
    by rewrite Himg.
Qed.

Lemma empty_path_is_no_image_witness :
  OpenAILMM_chat (Demo.world VNone "hello") Demo.client [Demo.user_message "hi"] (Some "")
  = OpenAILMM_chat (Demo.world VNone "hello") Demo.client [Demo.user_message "hi"] None.
Proof.
  exact (proj2 (proj2 (proj2 (empty_path_is_no_image (Demo.world VNone "hello")
                                {| llava_model_name := "llava" |} Demo.client "hi"
                                [Demo.user_message "hi"] (Some "")) eq_refl))).
Defined.

(** X8: What [chat] and [generate] make of the completion: the content of the
    first choice whatever follows it ([None] when it has no text), the
    [IndexError] of [choices[0]] when there is no choice, and the error of
    the API when it raises; in each case after the one request. *)
Theorem generate_first_choice (W : World) (self : OpenAILMM) (prompt : string) (tr : trace) :
  kwargs_clean self →
  let args := chat_request self [ {| fixed_role := "user"; fixed_content := [TextBlock prompt] |} ] in
  (∀ (c : Choice) (cs : list Choice),
     completions_create W tr args = Ok {| choices := c :: cs |} →
     OpenAILMM_generate W self prompt None tr
     = (Ok (opt_value (message_content c)), tr ++ [EvCreate args]))
  ∧ (completions_create W tr args = Ok {| choices := [] |} →
       OpenAILMM_generate W self prompt None tr
       = (Raise (IndexError "list index out of range"), tr ++ [EvCreate args]))
  ∧ (∀ e : exn, completions_create W tr args = Raise e →
       OpenAILMM_generate W self prompt None tr = (Raise e, tr ++ [EvCreate args])).
Proof.
  intros Hclean args.
  assert (OpenAILMM_generate W self prompt None tr
          = (first_text (completions_create W tr args), tr ++ [EvCreate args])) as Hrun.
  { rewrite (generate_no_image W self prompt None tr eq_refl). by apply send_clean. }
  rewrite Hrun. split; [| split].
  - intros c cs ->. reflexivity.
  - intros ->. reflexivity.
  - intros e ->. reflexivity.
Qed.

Lemma generate_first_choice_witness :
  let W := Demo.world VNone "a cat" in
  OpenAILMM_generate W Demo.client "what is this?" None []
  = (Ok (VStr "a cat"),
     [EvCreate (chat_request Demo.client
                  [ {| fixed_role := "user"; fixed_content := [TextBlock "what is this?"] |} ])]).
Proof.
  intros W.
  exact (proj1 (generate_first_choice W Demo.client "what is this?" [] client_clean)
           {| message_content := Some "a cat" |} [] eq_refl).
Defined.

Lemma clashing_client_clash : ¬ kwargs_clean clashing_client.
Proof. intros (Hmodel & _). discriminate. Qed.

(** X9: Passthrough options that repeat [model], [messages] or [max_tokens]:
    the call of [create] is a [TypeError] for the repeated keyword, so
    [generate] and [chat] raise it and no request is made, without an
    image and with one (for [chat]: an image of an accepted extension and
    a list that is not empty, so that the call of [create] is reached). *)
Theorem kwargs_clash_no_request (W : World) (self : OpenAILMM) (prompt : string)
    (chat : list (gmap string string)) (image : option string) (tr : trace) :
  ¬ kwargs_clean self →
  (truthy image = None →
     OpenAILMM_generate W self prompt image tr = (Raise TypeError, tr)
     ∧ (Forall well_formed chat →
          OpenAILMM_chat W self chat image tr = (Raise TypeError, tr)))
  ∧ (∀ p bytes : string, truthy image = Some p → open_read W tr p = Ok bytes →
       OpenAILMM_generate W self prompt image tr = (Raise TypeError, tr ++ [EvOpen p])
       ∧ (∀ tag : string, Forall well_formed chat → chat ≠ [] →
            chat_extension (suffix p) = Ok tag →
            OpenAILMM_chat W self chat image tr = (Raise TypeError, tr ++ [EvOpen p]))
       ∧ no_network [EvOpen p]).
Proof.
  intros Hclash. split.
  - intros Himg. split.
    + rewrite (generate_no_image W self prompt image tr Himg). by apply send_clash.
    + intros Hwf. destruct (fix_chat_well_formed _ Hwf) as (fixed & Hfix & _).
      rewrite (chat_no_image W self chat fixed image tr Hfix Himg). by apply send_clash.
  - intros p bytes Himg Hread. split; [| split; [| by repeat constructor]].
    + rewrite (generate_attach W self prompt image p bytes tr Himg Hread). by apply send_clash.
    + intros tag Hwf Hne Hext.
      destruct (fix_chat_well_formed _ Hwf) as (fixed & Hfix & Hall).
      rewrite (chat_attach W self chat fixed image p tag bytes tr Hfix Himg Hext Hread).
      destruct Hall as [| c m cs ms _ _]; [done |].
      cbn [append_first]. by apply send_clash.
Qed.

Lemma kwargs_clash_no_request_witness :
  let W := Demo.world VNone "a cat" in
  OpenAILMM_generate W clashing_client "what is this?" None [] = (Raise TypeError, [])
  ∧ OpenAILMM_chat W clashing_client [Demo.user_message "hi"] None [] = (Raise TypeError, [])
  ∧ OpenAILMM_generate W clashing_client "what is this?" (Some "img.png") []
    = (Raise TypeError, [EvOpen "img.png"])
  ∧ OpenAILMM_chat W clashing_client [Demo.user_message "hi"] (Some "img.png") []
    = (Raise TypeError, [EvOpen "img.png"]).
Proof.
  intros W.
  pose proof (kwargs_clash_no_request W clashing_client "what is this?"
                [Demo.user_message "hi"] None [] clashing_client_clash) as (Hnone & _).
  pose proof (kwargs_clash_no_request W clashing_client "what is this?"
                [Demo.user_message "hi"] (Some "img.png") [] clashing_client_clash) as (_ & Hsome).
  destruct (Hnone eq_refl) as (Hgen & Hchat).
  destruct (Hsome "img.png" "<img.png>" eq_refl eq_refl) as (Hgen' & Hchat' & _).
  assert (Forall well_formed [Demo.user_message "hi"]) as Hwf
    by exact (Forall_cons_2 _ _ _ (user_message_well_formed _) (Forall_nil_2 _)).
  split; [exact Hgen |]. split; [exact (Hchat Hwf) |]. split; [exact Hgen' |].
  apply (Hchat' "png" Hwf); [discriminate | reflexivity].
Defined.

Lemma request_blocks_chat_request (self : OpenAILMM) (fixed : list FixedMessage) :
  request_blocks (chat_request self fixed) = flat_map fixed_content fixed.
Proof.
  unfold request_blocks, chat_request; simpl.
  induction fixed as [| m fixed IH]; [done |].
  rewrite fmap_cons. simpl. by rewrite IH.
Qed.

Lemma fix_chat_blocks (chat : list (gmap string string)) (fixed : list FixedMessage) :
  fix_chat chat = Ok fixed → Forall chat_block_ok (flat_map fixed_content fixed).
Proof.
  revert fixed. induction chat as [| c chat IH]; intros fixed; simpl.
  - intros [= <-]. constructor.
  - destruct (dict_getitem c "role") as [r |]; simpl; [| discriminate].
    destruct (dict_getitem c "content") as [t |]; simpl; [| discriminate].
    destruct (fix_chat chat) as [fixed' |]; simpl; [| discriminate].
    intros [= <-]. simpl. constructor; [exact I | by apply IH].
Qed.

Lemma send_events (W : World) (self : OpenAILMM) (fixed : list FixedMessage) (tr : trace) :
  snd (send W self fixed tr) = tr
  ∨ snd (send W self fixed tr) = tr ++ [EvCreate (chat_request self fixed)].
Proof.
  destruct (decide (kwargs_clean self)) as [Hclean | Hclash].
  - right. by rewrite send_clean.
  - left. by rewrite send_clash.
Qed.

(** X10: In every run of [chat], for every input: each request sent carries
    only text blocks and image blocks of low detail whose URL is
    [data:image/jpg;base64,...] or [data:image/png;base64,...]; no other
    media tag ever reaches the API through [chat]. *)
Theorem chat_sends_jpg_or_png (W : World) (self : OpenAILMM)
    (chat : list (gmap string string)) (image : option string) (tr : trace) :
  ∃ evs : list Event,
    snd (OpenAILMM_chat W self chat image tr) = tr ++ evs
    ∧ ∀ args : CreateArgs, EvCreate args ∈ evs → Forall chat_block_ok (request_blocks args).
Proof.
  assert (∀ (fixed : list FixedMessage) (tr0 : trace) (pre : list Event),
            Forall chat_block_ok (flat_map fixed_content fixed) →
            tr0 = tr ++ pre → (∀ args, EvCreate args ∉ pre) →
            ∃ evs, snd (send W self fixed tr0) = tr ++ evs
                   ∧ ∀ args, EvCreate args ∈ evs → Forall chat_block_ok (request_blocks args))
    as Hsend.
  { intros fixed tr0 pre Hok -> Hpre.
    destruct (send_events W self fixed (tr ++ pre)) as [-> | ->].
    - exists pre. split; [done |]. intros args Hin. by destruct (Hpre args).
    - exists (pre ++ [EvCreate (chat_request self fixed)]). split; [by rewrite app_assoc |].
      intros args [Hin | Hin]%elem_of_app; [by destruct (Hpre args) |].
      apply list_elem_of_singleton in Hin as [= ->].
      by rewrite request_blocks_chat_request. }
  assert (∀ args, EvCreate args ∉ ([] : list Event)) as Hnil
    by (intros args Hin; by apply elem_of_nil in Hin).
  destruct (fix_chat chat) as [fixed | e] eqn:Hfix.
  2: { exists []. rewrite (chat_malformed W self chat image e tr Hfix).
       split; [by rewrite app_nil_r |]. intros args Hin. by destruct (Hnil args). }
  pose proof (fix_chat_blocks chat fixed Hfix) as Hblocks.
  destruct (truthy image) as [p |] eqn:Himg.
  2: { rewrite (chat_no_image W self chat fixed image tr Hfix Himg).
       apply (Hsend fixed tr []); [done | by rewrite app_nil_r | done]. }
  destruct (chat_extension (suffix p)) as [tag | e] eqn:Hext.
  2: { exists []. rewrite (chat_refused W self chat fixed image p e tr Hfix Himg Hext).
       split; [by rewrite app_nil_r |]. intros args Hin. by destruct (Hnil args). }
  assert (∀ args, EvCreate args ∉ [EvOpen p]) as Hopen.
  { intros args Hin. by apply list_elem_of_singleton in Hin. }
  destruct (open_read W tr p) as [bytes | e] eqn:Hread.
  2: { exists [EvOpen p].
       rewrite (chat_unreadable W self chat fixed image p tag e tr Hfix Himg Hext Hread).
       split; [done |]. intros args Hin. by destruct (Hopen args). }
  rewrite (chat_attach W self chat fixed image p tag bytes tr Hfix Himg Hext Hread).
  destruct fixed as [| m rest]; simpl.
  { exists [EvOpen p]. split; [done |]. intros args Hin. by destruct (Hopen args). }
  apply (Hsend _ _ [EvOpen p]); [| done | done].
  simpl in *. rewrite <- app_assoc. apply Forall_app in Hblocks as [Hm Hrest].
  apply Forall_app. split; [done |]. constructor; [| done].
  split; [done |]. exists tag, (b64encode W bytes). split; [| done].
  by apply (chat_extension_tag (suffix p)).
Qed.

Lemma chat_sends_jpg_or_png_witness :
  let W := Demo.world VNone "a cat" in
  ∃ evs : list Event,
    snd (OpenAILMM_chat W Demo.client [Demo.user_message "what is this?"] (Some "x.JPG") [])
    = evs
    ∧ ∀ args : CreateArgs, EvCreate args ∈ evs → Forall chat_block_ok (request_blocks args).
Proof.
  intros W.
  exact (chat_sends_jpg_or_png W Demo.client [Demo.user_message "what is this?"]
           (Some "x.JPG") []).
Defined.

(** ** More on the tool-selector factories *)

(** Every run of a factory, case by case. *)
Lemma selector_run (W : World) (T : Tool) (self : OpenAILMM) (question : string) (tr : trace) :
  let req := selector_request W T self question in
  tool_selector W T self question tr
  = match completions_create W tr req with
    | Raise e => (Raise e, tr ++ [EvCreate req])
    | Ok response =>
        match first_content response with
        | Raise e => (Raise e, tr ++ [EvCreate req])
        | Ok None => (Raise TypeError, tr ++ [EvCreate req])
        | Ok (Some text) =>
            match json_loads W text with
            | Raise e =>
                if is_JSONDecodeError e
                then (Raise ResponseParseError,
                      tr ++ [EvCreate req; EvLogError ("Failed to decode response: " +:+ text)])
                else (Raise e, tr ++ [EvCreate req])
            | Ok parsed =>
                match py_getitem parsed "Parameters" with
                | Ok params => (Ok (tool_closure W T params), tr ++ [EvCreate req])
                | Raise e => (Raise e, tr ++ [EvCreate req])
                end
            end
        end
    end.
Proof.
  intros req.
  unfold tool_selector, create, call_out, try_except, lift, mbind, M_bind; simpl.
  fold (selector_request W T self question). fold req.
  destruct (completions_create W tr req) as [response | e]; [| done].
  destruct (first_content response) as [[text |] | e] eqn:Htext; [| done |].
  2: { assert (e = IndexError "list index out of range") as ->; [| done].
       unfold first_content in Htext. destruct (choices response); congruence. }
  destruct (json_loads W text) as [parsed | e].
  - destruct parsed as [| | | | | | d]; simpl; try done.
    by destruct (d !! "Parameters").
  - destruct (is_JSONDecodeError e); [| done].
    simpl. by rewrite <- app_assoc.
Qed.

(** X11: A factory logs exactly when the model's text cannot be decoded, and
    then raises the parse error; in every other case, success or failure,
    its only event is the one completion request.  A factory never
    constructs or calls the tool: that is left to the closure. *)
Theorem selector_logs_on_decode_failure (W : World) (T : Tool)
    (factory : OpenAILMM -> string -> M (value -> M value))
    (self : OpenAILMM) (question : string) (tr : trace) :
  (T, factory) ∈ factories W →
  let req := selector_request W T self question in
  ((snd (factory self question tr) = tr ++ [EvCreate req]
    ∧ ∀ text : string, ¬ decode_failed W tr req text)
   ∨ (∃ text : string,
        decode_failed W tr req text
        ∧ factory self question tr
          = (Raise ResponseParseError,
             tr ++ [EvCreate req; EvLogError ("Failed to decode response: " +:+ text)])))
  ∧ ∃ evs : list Event,
      snd (factory self question tr) = tr ++ evs
      ∧ Forall (fun ev => is_tool_event ev = false) evs.
Proof.
  intros Hin req. rewrite (factories_selector W T factory Hin).
  rewrite (selector_run W T self question tr). fold req.
  assert (∃ evs, tr ++ [EvCreate req] = tr ++ evs
                 ∧ Forall (fun ev => is_tool_event ev = false) evs) as Hone.
  { exists [EvCreate req]. split; [done | by repeat constructor]. }
  destruct (completions_create W tr req) as [response | e] eqn:Hcreate.
  2: { split; [| apply Hone]. left. split; [done |].
       intros text (response & msg & Hr & _). rewrite Hcreate in Hr. discriminate. }
  destruct (first_content response) as [[text |] | e] eqn:Htext.
  2, 3: split; [| apply Hone]; left; (split; [done |]);
        intros text' (response' & msg & Hr & Ht & _);
        rewrite Hcreate in Hr; injection Hr as <-; rewrite Htext in Ht; discriminate.
  destruct (json_loads W text) as [parsed | e] eqn:Hloads.
  - split.
    + left. split; [by destruct (py_getitem parsed "Parameters") |].
      intros text' (response' & msg & Hr & Ht & Hl).
      rewrite Hcreate in Hr; injection Hr as <-. rewrite Htext in Ht; injection Ht as <-.
      rewrite Hloads in Hl. discriminate.
    + destruct (py_getitem parsed "Parameters"); apply Hone.
  - destruct e as [| msg | | | | |]; simpl;
      try (split; [| apply Hone]; left; (split; [done |]);
           intros text' (response' & msg' & Hr & Ht & Hl);
           rewrite Hcreate in Hr; injection Hr as <-; rewrite Htext in Ht; injection Ht as <-;
           rewrite Hloads in Hl; discriminate).
    split.
    + right. exists text. split; [| done]. by exists response, msg.
    + eexists. split; [done |]. by repeat constructor.
Qed.

Lemma selector_logs_on_decode_failure_witness :
  let W := Demo.world VNone "a cat, I think" in
  let req := selector_request W CLIP Demo.client "what is it?" in
  (snd (generate_classifier W Demo.client "what is it?" []) = [EvCreate req]
   ∧ ∀ text : string, ¬ decode_failed W [] req text)
  ∨ (∃ text : string,
       decode_failed W [] req text
       ∧ generate_classifier W Demo.client "what is it?" []
         = (Raise ResponseParseError,
            [EvCreate req; EvLogError ("Failed to decode response: " +:+ text)])).
Proof.
  intros W req.
  exact (proj1 (selector_logs_on_decode_failure W CLIP (generate_classifier W) Demo.client
                  "what is it?" [] (classifier_in_factories W))).
Defined.



(** X13: A factory does not look inside "Parameters": whatever value the key
    holds, the factory succeeds.  A missing "prompt" shows only when the
    closure is called: the tool has then been constructed, the closure
    raises [KeyError] (or [TypeError] when "Parameters" is not an object),
    and the tool is not called. *)
Theorem selector_defers_prompt_check (W : World) (T : Tool)
    (factory : OpenAILMM -> string -> M (value -> M value))
    (self : OpenAILMM) (question : string)
    (tr : trace) (response : ChatCompletion) (text : string)
    (d : gmap string value) (params : value) :
  (T, factory) ∈ factories W →
  completions_create W tr (selector_request W T self question) = Ok response →
  first_content response = Ok (Some text) →
  json_loads W text = Ok (VDict d) →
  d !! "Parameters" = Some params →
  ∃ f : value -> M value,
    factory self question tr = (Ok f, tr ++ [EvCreate (selector_request W T self question)])
    ∧ ∀ (x : value) (tr2 : trace), tool_new W tr2 T = Ok tt →
        (∀ pd : gmap string value, params = VDict pd → pd !! "prompt" = None →
           f x tr2 = (Raise (KeyError "prompt"), tr2 ++ [EvToolNew T]))
        ∧ ((∀ pd : gmap string value, params ≠ VDict pd) →
             f x tr2 = (Raise TypeError, tr2 ++ [EvToolNew T])).
Proof.
  intros Hin Hcreate Htext Hloads Hd. rewrite (factories_selector W T factory Hin).
  exists (tool_closure W T params). split.
  - rewrite (selector_parsed W T self question tr response text Hcreate Htext _ Hloads).
    simpl. by rewrite Hd.
  - intros x tr2 Hnew. split.
    + intros pd -> Hp.
      unfold tool_closure, call_out, lift, mbind, M_bind; simpl. by rewrite Hnew, Hp.
    + intros Hnot.
      unfold tool_closure, call_out, lift, mbind, M_bind; simpl. rewrite Hnew.
      destruct params as [| | | | | | pd]; try done. by destruct (Hnot pd).
Qed.

Lemma selector_defers_prompt_check_witness :
  let W := Demo.world VNone "{}" in
  let W' := {| open_read := open_read W; b64encode := b64encode W;
               requests_post := requests_post W; OpenAI_new := OpenAI_new W;
               completions_create := completions_create W;
               json_loads := fun _ => Ok (VDict {[ "Parameters" := VDict ∅ ]});
               str_of := str_of W; tool_new := tool_new W; tool_call := tool_call W;
               description := description W; usage_str := usage_str W;
               SYSTEM_PROMPT := SYSTEM_PROMPT W;
               CHOOSE_PARAMS_format := CHOOSE_PARAMS_format W |} in
  ∃ f : value -> M value,
    generate_classifier W' Demo.client "what is it?" []
    = (Ok f, [EvCreate (selector_request W' CLIP Demo.client "what is it?")])
    ∧ f (VStr "img.png") [] = (Raise (KeyError "prompt"), [EvToolNew CLIP]).
Proof.
  intros W W'.
  destruct (selector_defers_prompt_check W' CLIP (generate_classifier W') Demo.client
              "what is it?" [] {| choices := [ {| message_content := Some "{}" |} ] |} "{}"
              {[ "Parameters" := VDict ∅ ]} (VDict ∅)
              (classifier_in_factories W') eq_refl eq_refl eq_refl eq_refl)
    as (f & Hf & Hcall).
  exists f. split; [exact Hf |].
  exact (proj1 (Hcall (VStr "img.png") [] eq_refl) ∅ eq_refl eq_refl).
Defined.

(** X14: The closure can be called again: each call constructs the tool anew
    and calls it with the same prompt and that call's image. *)
Theorem closure_reusable (W : World) (T : Tool) (pd : gmap string value)
    (p x1 x2 r1 : value) (tr : trace) :
  let kw1 : gmap string value := <[ "image" := x1 ]> {[ "prompt" := p ]} in
  let kw2 : gmap string value := <[ "image" := x2 ]> {[ "prompt" := p ]} in
  pd !! "prompt" = Some p →
  tool_new W tr T = Ok tt →
  tool_call W (tr ++ [EvToolNew T]) T kw1 = Ok r1 →
  tool_new W (tr ++ [EvToolNew T; EvToolCall T kw1]) T = Ok tt →
  (tool_closure W T (VDict pd) x1 ≫= fun _ => tool_closure W T (VDict pd) x2) tr
  = (tool_call W (tr ++ [EvToolNew T; EvToolCall T kw1; EvToolNew T]) T kw2,
     tr ++ [EvToolNew T; EvToolCall T kw1; EvToolNew T; EvToolCall T kw2]).
Proof.
  intros kw1 kw2 Hp Hnew1 Hcall1 Hnew2.
  pose proof (tool_closure_run W T pd p x1 tr Hp Hnew1) as Hrun1.
  fold kw1 in Hrun1. rewrite Hcall1 in Hrun1.
  rewrite (bind_ok _ _ _ _ _ Hrun1).
  rewrite (tool_closure_run W T pd p x2 _ Hp Hnew2). fold kw2.
  by rewrite <- !app_assoc.
Qed.

Lemma closure_reusable_witness :
  let W := Demo.world VNone "" in
  let kw (x : value) : gmap string value := <[ "image" := x ]> {[ "prompt" := VStr "cat" ]} in
  (tool_closure W CLIP (VDict {[ "prompt" := VStr "cat" ]}) (VStr "a.png")
     ≫= fun _ => tool_closure W CLIP (VDict {[ "prompt" := VStr "cat" ]}) (VStr "b.png")) []
  = (Ok (VStr "result"),
     [EvToolNew CLIP; EvToolCall CLIP (kw (VStr "a.png"));
      EvToolNew CLIP; EvToolCall CLIP (kw (VStr "b.png"))]).
Proof.
  intros W kw.
  exact (closure_reusable W CLIP {[ "prompt" := VStr "cat" ]} (VStr "cat")
           (VStr "a.png") (VStr "b.png") (VStr "result") [] eq_refl eq_refl eq_refl eq_refl).
Defined.

(** ** More on the client factory *)

(** X15: [get_lmm] succeeds for the two names only, compared exactly: a client
    it returns is the one of "openai", with that model name, the default
    token limit and no passthrough options, built after [OpenAI()]; or the
    one of "llava", built without any event.  When [OpenAI()] raises,
    [get_lmm "openai"] raises the same. *)
Theorem get_lmm_success_sound (W : World) (name : string) (tr tr' : trace) (obj : LMMObject) :
  (get_lmm W name tr = (Ok obj, tr') →
     (name = "openai" ∧ tr' = tr ++ [EvClientNew]
      ∧ obj = AnOpenAILMM {| model_name := "openai"; max_tokens := 1024; kwargs := ∅ |})
     ∨ (name = "llava" ∧ tr' = tr ∧ obj = ALLaVALMM {| llava_model_name := "llava" |}))
  ∧ (∀ e : exn, OpenAI_new W tr = Raise e →
       get_lmm W "openai" tr = (Raise e, tr ++ [EvClientNew])).
Proof.
  split.
  - unfold get_lmm.
    destruct (String.eqb_spec name "openai") as [-> | _].
    + unfold OpenAILMM_init, call_out, mbind, M_bind; simpl.
      destruct (OpenAI_new W tr) as [[] |]; [| discriminate].
      intros [= <- <-]. by left.
    + destruct (String.eqb_spec name "llava") as [-> | _]; [| discriminate].
      intros [= <- <-]. by right.
  - intros e Hnew. unfold get_lmm, OpenAILMM_init, call_out, mbind, M_bind; simpl.
    by rewrite Hnew.
Qed.

Lemma get_lmm_success_sound_witness :
  (∀ name obj tr',
     get_lmm (Demo.world VNone "") name [] = (Ok obj, tr') →
     name = "openai" ∨ name = "llava")
  ∧ fst (get_lmm (Demo.world VNone "") "OpenAI" []) = Raise (UnknownBackend "OpenAI").
Proof.
  split; [| reflexivity].
  intros name obj tr' Hrun.
  destruct (proj1 (get_lmm_success_sound (Demo.world VNone "") name [] tr' obj) Hrun)
    as [(Hname & _) | (Hname & _)]; [by left | by right].
Defined.

(** X16: A client from [get_lmm "openai"] used at once: [generate] sends one
    request for the model named "openai" with the token limit 1024, the
    prompt as the single text block of one user message and no passthrough
    option; the keyword clash cannot occur. *)
Theorem get_lmm_openai_generate (W : World) (prompt : string) (tr : trace) :
  OpenAI_new W tr = Ok tt →
  let args :=
    {| model := "openai";
       messages := [ {| role := "user"; content := BlockContent [TextBlock prompt] |} ];
       max_tokens_arg := Some 1024;
       extra := ∅ |} in
  (get_lmm W "openai" ≫= fun obj => generate (LMM := LMMObject_LMM W) obj prompt None) tr
  = (first_text (completions_create W (tr ++ [EvClientNew]) args),
     tr ++ [EvClientNew; EvCreate args]).
Proof.
  intros Hnew args.
  assert (get_lmm W "openai" tr
          = (Ok (AnOpenAILMM {| model_name := "openai"; max_tokens := 1024; kwargs := ∅ |}),
             tr ++ [EvClientNew])) as Hget.
  { unfold get_lmm. simpl. erewrite bind_ok; [reflexivity |]. by apply OpenAILMM_init_ok. }
  rewrite (bind_ok _ _ _ _ _ Hget). simpl.
  rewrite (generate_no_image W _ prompt None _ eq_refl).
  rewrite send_clean by (by repeat split). by rewrite <- app_assoc.
Qed.

Lemma get_lmm_openai_generate_witness :
  (get_lmm (Demo.world VNone "a cat") "openai"
     ≫= fun obj => generate (LMM := LMMObject_LMM (Demo.world VNone "a cat")) obj "hi" None) []
  = (Ok (VStr "a cat"),
     [EvClientNew;
      EvCreate {| model := "openai";
                  messages := [ {| role := "user"; content := BlockContent [TextBlock "hi"] |} ];
                  max_tokens_arg := Some 1024;
                  extra := ∅ |}]).
Proof.
  exact (get_lmm_openai_generate (Demo.world VNone "a cat") "hi" [] eq_refl).
Defined.

(** X17: A client from [get_lmm "llava"]: [chat], and the unified call on a
    list of messages, raise [NotImplementedError] for every list and image
    without any event, so without a network call. *)
Theorem get_lmm_llava_chat_unsupported (W : World) (c : list (gmap string string))
    (image : option string) (tr : trace) :
  (get_lmm W "llava" ≫= fun obj => chat (LMM := LMMObject_LMM W) obj c image) tr
  = (Raise (NotImplementedError "Chat not supported for LLaVA"), tr)
  ∧ (get_lmm W "llava" ≫= fun obj => call (LMM := LMMObject_LMM W) obj (InChat c) image) tr
    = (Raise (NotImplementedError "Chat not supported for LLaVA"), tr).
Proof. split; reflexivity. Qed.
